(** * Tone-composer: the generation-and-asset lifecycle of the two pages

    A shallow embedding of the event handlers of the [AITone] page
    (fast and direct generation, export) and of the [Chatbot] page
    (notation generation, export).

    The handlers are [async] functions.  They are embedded as programs of a
    small free monad [Prog]: a program is a tree of the browser and
    network operations the handler performs, and suspends at every [await]
    of a network call.  Two interpreters run such a tree: [exec] runs one
    handler invocation to completion against the replies of the backend,
    [run_sync] runs one synchronous segment (up to the next [await]) and
    is what the event loop of [step] uses.

    React closures: a handler reads the component state through the
    variables of the render that created it ([prompt], [audioUrl], ...),
    and writes it through the setters.  A handler is therefore a function
    of the state snapshot [cap] it captured, and its writes are [Modify]
    nodes applied to the current state.  The page is rendered again
    before the next event is handled, so a click runs the handler that
    captured the state of that moment.

    The backend is outside: a network call resolves with a value or
    rejects, as the backend decides.  So is the browser's registry of
    object URLs, kept here as the map of live URLs and a counter. *)

From Stdlib Require Import QArith.
From Stdlib.Strings Require Import Byte.
From stdpp Require Import base option list strings pretty gmap.

Local Open Scope string_scope.
Local Open Scope list_scope.

(** ** Values *)

(** A JSON request body is an object; the handlers only put strings and
    numbers in it.  Numbers are forwarded verbatim, no arithmetic is done
    on them. *)
Inductive json : Type :=
| JString (s : string)
| JNumber (q : Q).

Definition payload : Type := list (string * json).

(** The body of a binary response. *)
Definition Blob : Type := list byte.

(** [type AbcResponse = { abc: string }] (and [HFAbcResponse], the same
    shape). *)
Record AbcResponse : Type := mkAbcResponse { res_abc : string }.

(** What a rejected promise carries: an [Error] with its [message], or
    any other thrown value. *)
Inductive thrown : Type :=
| ErrorObject (message : string)
| OtherValue.

(** The settlement of a promise. *)
Inductive outcome (A : Type) : Type :=
| Resolved (a : A)
| Rejected (e : thrown).
Arguments Resolved {A} a.
Arguments Rejected {A} e.

(** [kind: "wav" | "midi"] *)
Inductive Kind : Type := wav | midi.

Definition kind_str (kind : Kind) : string :=
  match kind with wav => "wav" | midi => "midi" end.

(** JavaScript truthiness of a [string | null] value: [null] and the empty
    string are falsy. *)
Definition truthy (v : option string) : bool :=
  match v with
  | Some (String _ _) => true
  | _ => false
  end.

(** [e instanceof Error ? e.message : "Generation failed"] *)
Definition failure_message (e : thrown) : string :=
  match e with
  | ErrorObject message => message
  | OtherValue => "Generation failed"
  end.

(** ** Observable effects *)

(** What a handler does to the outside world, in the order it does it. *)
Inductive effect : Type :=
| NetJSON (endpoint : string) (body : payload)
| NetBlob (endpoint : string) (body : payload)
| UrlCreated (url : string) (b : Blob)
| UrlRevoked (url : string)
| Download (href : string) (filename : string).

(** ** Handler programs *)

Inductive Prog (St A : Type) : Type :=
| Ret (a : A)
| Throw (e : thrown)
| Modify (f : St → St) (k : Prog St A)
| CreateObjectURL (b : Blob) (k : string → Prog St A)
| RevokeObjectURL (url : string) (k : Prog St A)
| AnchorClick (href filename : string) (k : Prog St A)
| PostJSON (endpoint : string) (body : payload) (k : outcome AbcResponse → Prog St A)
| PostBlob (endpoint : string) (body : payload) (k : outcome Blob → Prog St A).
Arguments Ret {St A} a.
Arguments Throw {St A} e.
Arguments Modify {St A} f k.
Arguments CreateObjectURL {St A} b k.
Arguments RevokeObjectURL {St A} url k.
Arguments AnchorClick {St A} href filename k.
Arguments PostJSON {St A} endpoint body k.
Arguments PostBlob {St A} endpoint body k.

Fixpoint bind {St A B : Type} (p : Prog St A) (f : A → Prog St B) : Prog St B :=
  match p with
  | Ret a => f a
  | Throw e => Throw e
  | Modify g k => Modify g (bind k f)
  | CreateObjectURL b k => CreateObjectURL b (λ u, bind (k u) f)
  | RevokeObjectURL u k => RevokeObjectURL u (bind k f)
  | AnchorClick h n k => AnchorClick h n (bind k f)
  | PostJSON ep body k => PostJSON ep body (λ r, bind (k r) f)
  | PostBlob ep body k => PostBlob ep body (λ r, bind (k r) f)
  end.

#[global] Instance prog_ret {St : Type} : MRet (Prog St) := λ A a, Ret a.
#[global] Instance prog_bind {St : Type} : MBind (Prog St) := λ A B f p, bind p f.

(** [try { p } catch (e) { h e }] *)
Fixpoint try_catch {St A : Type} (p : Prog St A) (h : thrown → Prog St A) : Prog St A :=
  match p with
  | Ret a => Ret a
  | Throw e => h e
  | Modify g k => Modify g (try_catch k h)
  | CreateObjectURL b k => CreateObjectURL b (λ u, try_catch (k u) h)
  | RevokeObjectURL u k => RevokeObjectURL u (try_catch k h)
  | AnchorClick l n k => AnchorClick l n (try_catch k h)
  | PostJSON ep body k => PostJSON ep body (λ r, try_catch (k r) h)
  | PostBlob ep body k => PostBlob ep body (λ r, try_catch (k r) h)
  end.

(** [try { p } finally { f }]: [f] runs on both exits and the exit of [p]
    stands, unless [f] itself throws. *)
Fixpoint finally {St A : Type} (p : Prog St A) (f : Prog St unit) : Prog St A :=
  match p with
  | Ret a => bind f (λ _, Ret a)
  | Throw e => bind f (λ _, Throw e)
  | Modify g k => Modify g (finally k f)
  | CreateObjectURL b k => CreateObjectURL b (λ u, finally (k u) f)
  | RevokeObjectURL u k => RevokeObjectURL u (finally k f)
  | AnchorClick l n k => AnchorClick l n (finally k f)
  | PostJSON ep body k => PostJSON ep body (λ r, finally (k r) f)
  | PostBlob ep body k => PostBlob ep body (λ r, finally (k r) f)
  end.

(** [await] of a promise: its value, or its rejection rethrown. *)
Definition await {St A : Type} (r : outcome A) : Prog St A :=
  match r with
  | Resolved a => Ret a
  | Rejected e => Throw e
  end.

Definition modify {St : Type} (f : St → St) : Prog St unit := Modify f (Ret tt).
Definition postJSON {St : Type} (endpoint : string) (body : payload) : Prog St AbcResponse :=
  PostJSON endpoint body await.
Definition postBlob {St : Type} (endpoint : string) (body : payload) : Prog St Blob :=
  PostBlob endpoint body await.
Definition createObjectURL {St : Type} (b : Blob) : Prog St string :=
  CreateObjectURL b Ret.
Definition revokeObjectURL {St : Type} (url : string) : Prog St unit :=
  RevokeObjectURL url (Ret tt).

(** [downloadBlob(blob, filename)]: an anchor whose [href] is a fresh
    object URL and whose [download] attribute is [filename] is added to the
    document, clicked and removed, and the URL is revoked. *)
Definition downloadBlob {St : Type} (blob : Blob) (filename : string) : Prog St unit :=
  url ← createObjectURL blob;
  AnchorClick url filename (Ret tt);;
  revokeObjectURL url.

(** ** The browser and the component around a handler *)

(** The [n]-th object URL the browser hands out.  Object URLs are
    [blob:...] strings, never empty and never handed out twice. *)
Definition blob_url (n : nat) : string := "blob:" +:+ pretty n.

Record World (St : Type) : Type := mkWorld {
  ui : St;                        (* the component state *)
  urls : gmap string Blob;       (* the live object URLs *)
  next_url : nat;                (* object URLs handed out so far *)
  log : list effect              (* effects so far, oldest first *)
}.
Arguments mkWorld {St} ui urls next_url log.
Arguments ui {St} w.
Arguments urls {St} w.
Arguments next_url {St} w.
Arguments log {St} w.

Definition set_ui {St : Type} (f : St → St) (w : World St) : World St :=
  mkWorld (f (ui w)) (urls w) (next_url w) (log w).
Definition emit {St : Type} (e : effect) (w : World St) : World St :=
  mkWorld (ui w) (urls w) (next_url w) (log w ++ [e]).
Definition alloc_url {St : Type} (b : Blob) (w : World St) : World St :=
  let u := blob_url (next_url w) in
  mkWorld (ui w) (<[u := b]> (urls w)) (S (next_url w)) (log w ++ [UrlCreated u b]).
Definition revoke_url {St : Type} (u : string) (w : World St) : World St :=
  mkWorld (ui w) (delete u (urls w)) (next_url w) (log w ++ [UrlRevoked u]).

(** The backend, as far as one handler invocation sees it: the reply to
    each request. *)
Record Net : Type := mkNet {
  json_reply : string → payload → outcome AbcResponse;
  blob_reply : string → payload → outcome Blob
}.

(** One handler invocation run to completion. *)
Fixpoint exec {St A : Type} (net : Net) (p : Prog St A) (w : World St) : World St * outcome A :=
  match p with
  | Ret a => (w, Resolved a)
  | Throw e => (w, Rejected e)
  | Modify f k => exec net k (set_ui f w)
  | CreateObjectURL b k => exec net (k (blob_url (next_url w))) (alloc_url b w)
  | RevokeObjectURL u k => exec net k (revoke_url u w)
  | AnchorClick l n k => exec net k (emit (Download l n) w)
  | PostJSON ep body k => exec net (k (json_reply net ep body)) (emit (NetJSON ep body) w)
  | PostBlob ep body k => exec net (k (blob_reply net ep body)) (emit (NetBlob ep body) w)
  end.

(** Where a synchronous segment stops. *)
Inductive paused (St A : Type) : Type :=
| Finished (r : outcome A)
| AwaitingJSON (endpoint : string) (body : payload) (k : outcome AbcResponse → Prog St A)
| AwaitingBlob (endpoint : string) (body : payload) (k : outcome Blob → Prog St A).
Arguments Finished {St A} r.
Arguments AwaitingJSON {St A} endpoint body k.
Arguments AwaitingBlob {St A} endpoint body k.

(** One synchronous segment: up to the end of the handler or to its next
    [await], whose request is sent before the handler suspends. *)
Fixpoint run_sync {St A : Type} (p : Prog St A) (w : World St) : World St * paused St A :=
  match p with
  | Ret a => (w, Finished (Resolved a))
  | Throw e => (w, Finished (Rejected e))
  | Modify f k => run_sync k (set_ui f w)
  | CreateObjectURL b k => run_sync (k (blob_url (next_url w))) (alloc_url b w)
  | RevokeObjectURL u k => run_sync k (revoke_url u w)
  | AnchorClick l n k => run_sync k (emit (Download l n) w)
  | PostJSON ep body k => (emit (NetJSON ep body) w, AwaitingJSON ep body k)
  | PostBlob ep body k => (emit (NetBlob ep body) w, AwaitingBlob ep body k)
  end.

(** [if (v) f(v)] on a [string | null] value. *)
Definition if_truthy {St : Type} (v : option string) (f : string → Prog St unit) : Prog St unit :=
  match v with
  | Some s => if truthy (Some s) then f s else Ret tt
  | None => Ret tt
  end.

(** ** The AITone page *)

Module AITone.

(** [mode: "fast" | "direct"] *)
Inductive Mode : Type := fast | direct.

(** The [useState] cells of the component. *)
Record State : Type := mkState {
  mode : Mode;
  prompt : string;
  loading : bool;
  error : option string;
  abc : option string;
  audioUrl : option string;
  keySig : string;
  meter : string;
  bars : Q;
  bpm : Q;
  density : Q;
  brightness : Q;
  guidance : Q;
  duration : Q
}.

(** The arguments of the [useState] calls. *)
Definition initial : State :=
  {| mode := fast; prompt := ""; loading := false; error := None; abc := None;
     audioUrl := None; keySig := "D"; meter := "4/4"; bars := 16;
     bpm := 120; density := 0.8; brightness := 0.7; guidance := 4.0; duration := 12 |}.

Definition set_mode (v : Mode) (s : State) : State :=
  mkState v (prompt s) (loading s) (error s) (abc s) (audioUrl s) (keySig s) (meter s)
    (bars s) (bpm s) (density s) (brightness s) (guidance s) (duration s).
Definition set_prompt (v : string) (s : State) : State :=
  mkState (mode s) v (loading s) (error s) (abc s) (audioUrl s) (keySig s) (meter s)
    (bars s) (bpm s) (density s) (brightness s) (guidance s) (duration s).
Definition set_loading (v : bool) (s : State) : State :=
  mkState (mode s) (prompt s) v (error s) (abc s) (audioUrl s) (keySig s) (meter s)
    (bars s) (bpm s) (density s) (brightness s) (guidance s) (duration s).
Definition set_error (v : option string) (s : State) : State :=
  mkState (mode s) (prompt s) (loading s) v (abc s) (audioUrl s) (keySig s) (meter s)
    (bars s) (bpm s) (density s) (brightness s) (guidance s) (duration s).
Definition set_abc (v : option string) (s : State) : State :=
  mkState (mode s) (prompt s) (loading s) (error s) v (audioUrl s) (keySig s) (meter s)
    (bars s) (bpm s) (density s) (brightness s) (guidance s) (duration s).
Definition set_audioUrl (v : option string) (s : State) : State :=
  mkState (mode s) (prompt s) (loading s) (error s) (abc s) v (keySig s) (meter s)
    (bars s) (bpm s) (density s) (brightness s) (guidance s) (duration s).
Definition set_keySig (v : string) (s : State) : State :=
  mkState (mode s) (prompt s) (loading s) (error s) (abc s) (audioUrl s) v (meter s)
    (bars s) (bpm s) (density s) (brightness s) (guidance s) (duration s).
Definition set_meter (v : string) (s : State) : State :=
  mkState (mode s) (prompt s) (loading s) (error s) (abc s) (audioUrl s) (keySig s) v
    (bars s) (bpm s) (density s) (brightness s) (guidance s) (duration s).
Definition set_bars (v : Q) (s : State) : State :=
  mkState (mode s) (prompt s) (loading s) (error s) (abc s) (audioUrl s) (keySig s) (meter s)
    v (bpm s) (density s) (brightness s) (guidance s) (duration s).
Definition set_bpm (v : Q) (s : State) : State :=
  mkState (mode s) (prompt s) (loading s) (error s) (abc s) (audioUrl s) (keySig s) (meter s)
    (bars s) v (density s) (brightness s) (guidance s) (duration s).
Definition set_density (v : Q) (s : State) : State :=
  mkState (mode s) (prompt s) (loading s) (error s) (abc s) (audioUrl s) (keySig s) (meter s)
    (bars s) (bpm s) v (brightness s) (guidance s) (duration s).
Definition set_brightness (v : Q) (s : State) : State :=
  mkState (mode s) (prompt s) (loading s) (error s) (abc s) (audioUrl s) (keySig s) (meter s)
    (bars s) (bpm s) (density s) v (guidance s) (duration s).
Definition set_guidance (v : Q) (s : State) : State :=
  mkState (mode s) (prompt s) (loading s) (error s) (abc s) (audioUrl s) (keySig s) (meter s)
    (bars s) (bpm s) (density s) (brightness s) v (duration s).
Definition set_duration (v : Q) (s : State) : State :=
  mkState (mode s) (prompt s) (loading s) (error s) (abc s) (audioUrl s) (keySig s) (meter s)
    (bars s) (bpm s) (density s) (brightness s) (guidance s) v.

(** The setters the handlers call. *)
Definition setLoading (v : bool) : Prog State unit := modify (set_loading v).
Definition setError (v : option string) : Prog State unit := modify (set_error v).
Definition setAbc (v : option string) : Prog State unit := modify (set_abc v).
Definition setAudioUrl (v : option string) : Prog State unit := modify (set_audioUrl v).

Definition runFast (cap : State) : Prog State unit :=
  res ← postJSON "/api/gemini/abc"
          [("prompt", JString (prompt cap));
           ("key", JString (keySig cap));
           ("meter", JString (meter cap));
           ("unit_note_length", JString "1/8");
           ("bars", JNumber (bars cap))];
  setAbc (Some (res_abc res));;
  wav ← postBlob "/api/abc/audio/wav" [("abc", JString (res_abc res))];
  if_truthy (audioUrl cap) revokeObjectURL;;
  url ← createObjectURL wav;
  setAudioUrl (Some url).

Definition runDirect (cap : State) : Prog State unit :=
  setAbc None;;
  wav ← postBlob "/api/gemini/audio/wav"
          [("prompt", JString (prompt cap));
           ("bpm", JNumber (bpm cap));
           ("density", JNumber (density cap));
           ("brightness", JNumber (brightness cap));
           ("guidance", JNumber (guidance cap));
           ("duration_seconds", JNumber (duration cap))];
  if_truthy (audioUrl cap) revokeObjectURL;;
  url ← createObjectURL wav;
  setAudioUrl (Some url).

Definition onGenerate (cap : State) : Prog State unit :=
  setError None;;
  setLoading true;;
  finally
    (try_catch
       (match mode cap with
        | fast => runFast cap
        | direct => runDirect cap
        end)
       (λ e, setError (Some (failure_message e))))
    (setLoading false).

Definition onDownload (kind : Kind) (cap : State) : Prog State unit :=
  match abc cap with
  | Some text =>
      if truthy (Some text) then
        blob ← postBlob ("/api/abc/audio/" +:+ kind_str kind) [("abc", JString text)];
        downloadBlob blob (match kind with wav => "ai-tone.wav" | midi => "ai-tone.mid" end)
      else Ret tt
  | None => Ret tt
  end.

(** What the user can do to the inputs: the two mode buttons, the prompt
    and the key and meter fields, the sliders. *)
Inductive Input : Type :=
| SetMode (v : Mode)
| SetPrompt (v : string)
| SetKeySig (v : string)
| SetMeter (v : string)
| SetBars (v : Q)
| SetBpm (v : Q)
| SetDuration (v : Q)
| SetDensity (v : Q)
| SetBrightness (v : Q)
| SetGuidance (v : Q).

Definition input (i : Input) : State → State :=
  match i with
  | SetMode v => set_mode v
  | SetPrompt v => set_prompt v
  | SetKeySig v => set_keySig v
  | SetMeter v => set_meter v
  | SetBars v => set_bars v
  | SetBpm v => set_bpm v
  | SetDuration v => set_duration v
  | SetDensity v => set_density v
  | SetBrightness v => set_brightness v
  | SetGuidance v => set_guidance v
  end.

(** [{mode === "fast" && abc && (<> download buttons </>)}] *)
Definition download_shown (s : State) : bool :=
  match mode s with
  | fast => truthy (abc s)
  | direct => false
  end.

End AITone.

(** ** The Chatbot page *)

Module Chatbot.

Record State : Type := mkState {
  prompt : string;
  topP : Q;
  temperature : Q;
  loading : bool;
  error : option string;
  abc : option string;
  audioUrl : option string
}.

Definition initial : State :=
  {| prompt := ""; topP := 0.9; temperature := 1.0; loading := false;
     error := None; abc := None; audioUrl := None |}.

Definition set_prompt (v : string) (s : State) : State :=
  mkState v (topP s) (temperature s) (loading s) (error s) (abc s) (audioUrl s).
Definition set_topP (v : Q) (s : State) : State :=
  mkState (prompt s) v (temperature s) (loading s) (error s) (abc s) (audioUrl s).
Definition set_temperature (v : Q) (s : State) : State :=
  mkState (prompt s) (topP s) v (loading s) (error s) (abc s) (audioUrl s).
Definition set_loading (v : bool) (s : State) : State :=
  mkState (prompt s) (topP s) (temperature s) v (error s) (abc s) (audioUrl s).
Definition set_error (v : option string) (s : State) : State :=
  mkState (prompt s) (topP s) (temperature s) (loading s) v (abc s) (audioUrl s).
Definition set_abc (v : option string) (s : State) : State :=
  mkState (prompt s) (topP s) (temperature s) (loading s) (error s) v (audioUrl s).
Definition set_audioUrl (v : option string) (s : State) : State :=
  mkState (prompt s) (topP s) (temperature s) (loading s) (error s) (abc s) v.

Definition setLoading (v : bool) : Prog State unit := modify (set_loading v).
Definition setError (v : option string) : Prog State unit := modify (set_error v).
Definition setAbc (v : option string) : Prog State unit := modify (set_abc v).
Definition setAudioUrl (v : option string) : Prog State unit := modify (set_audioUrl v).

Definition onGenerate (cap : State) : Prog State unit :=
  setError None;;
  setLoading true;;
  finally
    (try_catch
       (res ← postJSON "/api/hf/abc"
                [("prompt", JString (prompt cap));
                 ("top_p", JNumber (topP cap));
                 ("temperature", JNumber (temperature cap));
                 ("max_length", JNumber 1024)];
        setAbc (Some (res_abc res));;
        wav ← postBlob "/api/abc/audio/wav" [("abc", JString (res_abc res))];
        if_truthy (audioUrl cap) revokeObjectURL;;
        url ← createObjectURL wav;
        setAudioUrl (Some url))
       (λ e, setError (Some (failure_message e))))
    (setLoading false).

Definition onDownload (kind : Kind) (cap : State) : Prog State unit :=
  match abc cap with
  | Some text =>
      if truthy (Some text) then
        blob ← postBlob ("/api/abc/audio/" +:+ kind_str kind) [("abc", JString text)];
        downloadBlob blob (match kind with wav => "fusion.wav" | midi => "fusion.mid" end)
      else Ret tt
  | None => Ret tt
  end.

Inductive Input : Type :=
| SetPrompt (v : string)
| SetTopP (v : Q)
| SetTemperature (v : Q).

Definition input (i : Input) : State → State :=
  match i with
  | SetPrompt v => set_prompt v
  | SetTopP v => set_topP v
  | SetTemperature v => set_temperature v
  end.

(** [{abc && (<> download buttons </>)}] *)
Definition download_shown (s : State) : bool := truthy (abc s).

End Chatbot.

(** ** A page as the event loop sees it *)

Record Component : Type := mkComponent {
  CState : Type;
  CInput : Type;
  c_initial : CState;
  c_input : CInput → CState → CState;
  c_loading : CState → bool;                       (* the [loading] cell *)
  c_audioUrl : CState → option string;             (* the [audioUrl] cell *)
  c_download_shown : CState → bool;                (* are the download buttons rendered *)
  c_onGenerate : CState → Prog CState unit;
  c_onDownload : Kind → CState → Prog CState unit
}.

Definition AITone_page : Component :=
  {| CState := AITone.State;
     CInput := AITone.Input;
     c_initial := AITone.initial;
     c_input := AITone.input;
     c_loading := AITone.loading;
     c_audioUrl := AITone.audioUrl;
     c_download_shown := AITone.download_shown;
     c_onGenerate := AITone.onGenerate;
     c_onDownload := AITone.onDownload |}.

Definition Chatbot_page : Component :=
  {| CState := Chatbot.State;
     CInput := Chatbot.Input;
     c_initial := Chatbot.initial;
     c_input := Chatbot.input;
     c_loading := Chatbot.loading;
     c_audioUrl := Chatbot.audioUrl;
     c_download_shown := Chatbot.download_shown;
     c_onGenerate := Chatbot.onGenerate;
     c_onDownload := Chatbot.onDownload |}.

(** A freshly mounted page: no object URL, nothing done yet. *)
Definition mount (C : Component) : World (CState C) := mkWorld (c_initial C) ∅ 0 [].

(** *** Handler invocations one after the other

    Each invocation runs to completion before the next one starts, and the
    page is rendered again in between: the handler invoked next has
    captured the state the previous one left. *)

Inductive command (C : Component) : Type :=
| DoInput (i : CInput C)
| DoGenerate (net : Net)
| DoDownload (kind : Kind) (net : Net).
Arguments DoInput {C} i.
Arguments DoGenerate {C} net.
Arguments DoDownload {C} kind net.

Definition generate (C : Component) (net : Net) (w : World (CState C)) : World (CState C) * outcome unit :=
  exec net (c_onGenerate C (ui w)) w.

Definition export (C : Component) (kind : Kind) (net : Net) (w : World (CState C)) : World (CState C) * outcome unit :=
  exec net (c_onDownload C kind (ui w)) w.

Definition perform {C : Component} (w : World (CState C)) (c : command C) : World (CState C) :=
  match c with
  | DoInput i => set_ui (c_input C i) w
  | DoGenerate net => (generate C net w).1
  | DoDownload kind net => (export C kind net w).1
  end.

Definition session (C : Component) (cmds : list (command C)) : World (CState C) :=
  foldl perform (mount C) cmds.

(** *** The event loop

    Handlers suspended at an [await] wait in [tasks] for the reply to their
    request; replies arrive in any order, and clicks and inputs in
    between.  Each event runs one synchronous segment of one handler. *)

Inductive handler : Type := Generate | Export (kind : Kind).

Inductive pending (St : Type) : Type :=
| PendingJSON (k : outcome AbcResponse → Prog St unit)
| PendingBlob (k : outcome Blob → Prog St unit).
Arguments PendingJSON {St} k.
Arguments PendingBlob {St} k.

Record Machine (C : Component) : Type := mkMachine {
  world : World (CState C);
  tasks : list (handler * pending (CState C));   (* suspended handlers *)
  unhandled : list thrown                        (* rejections nothing caught *)
}.
Arguments mkMachine {C} world tasks unhandled.
Arguments world {C} m.
Arguments tasks {C} m.
Arguments unhandled {C} m.

Inductive event (C : Component) : Type :=
| UserInput (i : CInput C)
| ClickGenerate
| ClickDownload (kind : Kind)
| JSONReply (n : nat) (r : outcome AbcResponse)   (* to the [n]-th suspended handler *)
| BlobReply (n : nat) (r : outcome Blob).
Arguments UserInput {C} i.
Arguments ClickGenerate {C}.
Arguments ClickDownload {C} kind.
Arguments JSONReply {C} n r.
Arguments BlobReply {C} n r.

(** Modelled from the spec: the [Button] component (components/ui/Button)
    is not among the sources; the pages pass it [onClick] and [disabled].
    The spec says the trigger is disabled while a generation is in flight,
    and that this, not queuing or cancellation, is what keeps a second one
    from starting: a click on a disabled button runs no handler. *)
Definition Button {A : Type} (disabled : bool) (onClick : A) : option A :=
  if disabled then None else Some onClick.

(** Where a handler is after a synchronous segment: done, or suspended
    again. *)
Definition settle {C : Component} (h : handler)
    (r : World (CState C) * paused (CState C) unit)
    (others : list (handler * pending (CState C))) (rej : list thrown) : Machine C :=
  match r with
  | (w, Finished (Resolved _)) => mkMachine w others rej
  | (w, Finished (Rejected e)) => mkMachine w others (rej ++ [e])
  | (w, AwaitingJSON _ _ k) => mkMachine w (others ++ [(h, PendingJSON k)]) rej
  | (w, AwaitingBlob _ _ k) => mkMachine w (others ++ [(h, PendingBlob k)]) rej
  end.

Definition step {C : Component} (m : Machine C) (ev : event C) : Machine C :=
  let s := ui (world m) in
  match ev with
  | UserInput i => mkMachine (set_ui (c_input C i) (world m)) (tasks m) (unhandled m)
  | ClickGenerate =>
      (* <Button onClick={onGenerate} disabled={loading}> *)
      match Button (c_loading C s) (c_onGenerate C s) with
      | Some p => settle Generate (run_sync p (world m)) (tasks m) (unhandled m)
      | None => m
      end
  | ClickDownload kind =>
      if c_download_shown C s
      then settle (Export kind) (run_sync (c_onDownload C kind s) (world m)) (tasks m) (unhandled m)
      else m
  | JSONReply n r =>
      match tasks m !! n with
      | Some (h, PendingJSON k) =>
          settle h (run_sync (k r) (world m)) (delete n (tasks m)) (unhandled m)
      | _ => m
      end
  | BlobReply n r =>
      match tasks m !! n with
      | Some (h, PendingBlob k) =>
          settle h (run_sync (k r) (world m)) (delete n (tasks m)) (unhandled m)
      | _ => m
      end
  end.

Definition boot (C : Component) : Machine C := mkMachine (mount C) [] [].

Definition run {C : Component} (evs : list (event C)) : Machine C := foldl step (boot C) evs.

(** The generations in flight. *)
Definition is_generate {St : Type} (t : handler * pending St) : bool :=
  match t.1 with Generate => true | Export _ => false end.

Definition in_flight {C : Component} (m : Machine C) : nat :=
  length (List.filter is_generate (tasks m)).

(** ** Reading the log *)

Definition creates (u : string) (e : effect) : bool :=
  match e with UrlCreated v _ => bool_decide (v = u) | _ => false end.

Definition revokes (u : string) (e : effect) : bool :=
  match e with UrlRevoked v => bool_decide (v = u) | _ => false end.

Definition count (f : effect → bool) (l : list effect) : nat :=
  length (List.filter f l).

Definition is_net (e : effect) : bool :=
  match e with NetJSON _ _ | NetBlob _ _ => true | _ => false end.


(** The log entry of [if (audioUrl) URL.revokeObjectURL(audioUrl)] for a
    captured [audioUrl]. *)
Definition revoke_old (v : option string) : list effect :=
  match v with
  | Some s => if truthy (Some s) then [UrlRevoked s] else []
  | None => []
  end.

(** The browser has not yet made live a URL it has not handed out. *)
Definition fresh_urls {St : Type} (w : World St) : Prop :=
  ∀ n : nat, (next_url w ≤ n)%nat → urls w !! blob_url n = None.

(** Backends used as examples. *)
Definition backend_ok (text : string) (bytes : Blob) : Net :=
  mkNet (λ _ _, Resolved (mkAbcResponse text)) (λ _ _, Resolved bytes).
Definition backend_render_fails (text : string) (e : thrown) : Net :=
  mkNet (λ _ _, Resolved (mkAbcResponse text)) (λ _ _, Rejected e).
Definition backend_down (e : thrown) : Net :=
  mkNet (λ _ _, Rejected e) (λ _ _, Rejected e).

Definition riff : Blob := [x52; x49; x46; x46]%byte.
Definition mthd : Blob := [x4d; x54; x68; x64]%byte.

(** The two pages. *)
Inductive Page : Type := AITonePage | ChatbotPage.

Definition page (p : Page) : Component :=
  match p with
  | AITonePage => AITone_page
  | ChatbotPage => Chatbot_page
  end.

(** ** The audio handle slot *)

(** The handle the page has published: what [<audio src={audioUrl}>]
    plays. *)
Definition published {C : Component} (w : World (CState C)) : option string :=
  c_audioUrl C (ui w).

(** The bookkeeping of object URLs, over the published handle [pub], the
    live URLs, the number of URLs handed out and the log: the published
    handle is the one live URL; only URLs that were handed out are
    published, created or revoked; and each URL handed out was created
    once, and revoked once unless it is the published one. *)
Definition handles_ok (pub : option string) (live : gmap string Blob) (next : nat)
    (l : list effect) : Prop :=
  dom live = match pub with Some u => {[u]} | None => (∅ : gset string) end
  ∧ (∀ u : string,
       pub = Some u ∨ count (creates u) l ≠ 0%nat ∨ count (revokes u) l ≠ 0%nat →
       ∃ n : nat, (n < next)%nat ∧ u = blob_url n)
  ∧ (∀ n : nat, (n < next)%nat →
       count (creates (blob_url n)) l = 1%nat
       ∧ count (revokes (blob_url n)) l =
           if bool_decide (pub = Some (blob_url n)) then 0%nat else 1%nat).

Definition world_ok {C : Component} (w : World (CState C)) : Prop :=
  handles_ok (published w) (urls w) (next_url w) (log w).

(** What one generation does to the handle slot, from [w] to [w']: nothing
    at all, or, after its network calls, it revokes the handle published
    in [w], if any, then creates the handle it publishes. *)
Definition releases_then_publishes {C : Component} (w w' : World (CState C)) : Prop :=
  (published w' = published w ∧ urls w' = urls w ∧ next_url w' = next_url w)
  ∨ (∃ (calls : list effect) (wav : Blob),
       Forall (λ e, is_net e = true) calls
       ∧ log w' =
           log w ++ calls
           ++ match published w with Some old => [UrlRevoked old] | None => [] end
           ++ [UrlCreated (blob_url (next_url w)) wav]
       ∧ published w' = Some (blob_url (next_url w))).

(** ** Handlers segment by segment

    [segments Rely Pause Done p w0 w]: the handler [p], whose current
    segment started in the world [w0] and has reached [w], leaves the
    worlds at its suspension points related to the start of their segment
    by [Pause], and the world at its end by [Done], provided every world
    it is resumed in satisfies [Rely]. *)
Fixpoint segments {St A : Type} (Rely : World St → Prop)
    (Pause Done : World St → World St → Prop)
    (p : Prog St A) (w0 w : World St) : Prop :=
  match p with
  | Ret _ | Throw _ => Done w0 w
  | Modify f k => segments Rely Pause Done k w0 (set_ui f w)
  | CreateObjectURL b k =>
      segments Rely Pause Done (k (blob_url (next_url w))) w0 (alloc_url b w)
  | RevokeObjectURL u k => segments Rely Pause Done k w0 (revoke_url u w)
  | AnchorClick l n k => segments Rely Pause Done k w0 (emit (Download l n) w)
  | PostJSON ep body k =>
      Pause w0 (emit (NetJSON ep body) w)
      ∧ ∀ r w', Rely w' → segments Rely Pause Done (k r) w' w'
  | PostBlob ep body k =>
      Pause w0 (emit (NetBlob ep body) w)
      ∧ ∀ r w', Rely w' → segments Rely Pause Done (k r) w' w'
  end.

(** A suspended handler that will run such segments when it is resumed. *)
Definition resumable {St : Type} (Rely : World St → Prop)
    (Pause Done : World St → World St → Prop) (t : pending St) : Prop :=
  match t with
  | PendingJSON k => ∀ r w, Rely w → segments Rely Pause Done (k r) w w
  | PendingBlob k => ∀ r w, Rely w → segments Rely Pause Done (k r) w w
  end.

(** A generation runs with [loading] set and the published handle [a] it
    captured in place, up to its end, where it clears [loading]; an export
    leaves both as it finds them.  All keep the books of object URLs. *)
Definition generating {C : Component} (a : option string) (w : World (CState C)) : Prop :=
  world_ok w ∧ published w = a ∧ c_loading C (ui w) = true.
Definition generated {C : Component} (w : World (CState C)) : Prop :=
  world_ok w ∧ c_loading C (ui w) = false.
Definition exporting {C : Component} (w0 w : World (CState C)) : Prop :=
  world_ok w ∧ published w = published w0 ∧ c_loading C (ui w) = c_loading C (ui w0).

Definition task_ok {C : Component} (a : option string)
    (t : handler * pending (CState C)) : Prop :=
  match t.1 with
  | Generate => resumable (generating a) (λ _, generating a) (λ _, generated) t.2
  | Export _ => resumable world_ok exporting exporting t.2
  end.

(** The event loop keeps the books of object URLs, and one generation in
    flight exactly while [loading] is set. *)
Definition machine_ok {C : Component} (m : Machine C) : Prop :=
  world_ok (world m)
  ∧ in_flight m = (if c_loading C (ui (world m)) then 1%nat else 0%nat)
  ∧ Forall (task_ok (published (world m))) (tasks m).

(** ** What the pages render

    The parts of the returned JSX that depend on the state: the Generate
    button, the download buttons, the error line, the audio player and the
    notation panel. *)
Record View : Type := mkView {
  generate_label : string;        (* {loading ? "Generating..." : "Generate"} *)
  generate_disabled : bool;       (* disabled={loading} *)
  download_buttons : list Kind;   (* Download MIDI, Download WAV, in this order *)
  error_text : option string;     (* {error && <div>{error}</div>} *)
  audio_src : option string;      (* {audioUrl ? <audio src={audioUrl}/> : placeholder} *)
  notation_text : option string   (* {abc ? <pre>{abc}</pre> : placeholder} *)
}.

(** [{v && ...}] and [{v ? ... : ...}] render [v] when it is truthy. *)
Definition shown (v : option string) : option string :=
  if truthy v then v else None.

Definition AITone_view (s : AITone.State) : View :=
  {| generate_label := if AITone.loading s then "Generating..." else "Generate";
     generate_disabled := AITone.loading s;
     download_buttons :=
       match AITone.mode s with
       | AITone.fast => if truthy (AITone.abc s) then [midi; wav] else []
       | AITone.direct => []
       end;
     error_text := shown (AITone.error s);
     audio_src := shown (AITone.audioUrl s);
     notation_text := shown (AITone.abc s) |}.

Definition Chatbot_view (s : Chatbot.State) : View :=
  {| generate_label := if Chatbot.loading s then "Generating..." else "Generate";
     generate_disabled := Chatbot.loading s;
     download_buttons := if truthy (Chatbot.abc s) then [midi; wav] else [];
     error_text := shown (Chatbot.error s);
     audio_src := shown (Chatbot.audioUrl s);
     notation_text := shown (Chatbot.abc s) |}.

Definition view (p : Page) : CState (page p) → View :=
  match p return CState (page p) → View with
  | AITonePage => AITone_view
  | ChatbotPage => Chatbot_view
  end.

(** The controls of the AITone page: the mode buttons and the prompt are
    always rendered, [{mode === "fast" ? ... : ...}] renders the key, meter
    and bars controls in fast mode and the five sliders in direct mode. *)
Definition AITone_rendered (s : AITone.State) (i : AITone.Input) : bool :=
  match i with
  | AITone.SetMode _ | AITone.SetPrompt _ => true
  | AITone.SetKeySig _ | AITone.SetMeter _ | AITone.SetBars _ =>
      match AITone.mode s with AITone.fast => true | AITone.direct => false end
  | AITone.SetBpm _ | AITone.SetDuration _ | AITone.SetDensity _
  | AITone.SetBrightness _ | AITone.SetGuidance _ =>
      match AITone.mode s with AITone.fast => false | AITone.direct => true end
  end.

Definition is_download (e : effect) : bool :=
  match e with Download _ _ => true | _ => false end.

(** ** Suspended handlers and what happens meanwhile *)

(** [blind g p]: every state update of the handler [p], on every path,
    commutes with the state update [g]. *)
Fixpoint blind {St A : Type} (g : St → St) (p : Prog St A) : Prop :=
  match p with
  | Ret _ | Throw _ => True
  | Modify f k => (∀ s, f (g s) = g (f s)) ∧ blind g k
  | CreateObjectURL _ k => ∀ u, blind g (k u)
  | RevokeObjectURL _ k => blind g k
  | AnchorClick _ _ k => blind g k
  | PostJSON _ _ k => ∀ r, blind g (k r)
  | PostBlob _ _ k => ∀ r, blind g (k r)
  end.

Definition blind_task {C : Component} (t : handler * pending (CState C)) : Prop :=
  match t.2 with
  | PendingJSON k => ∀ (i : CInput C) r, blind (c_input C i) (k r)
  | PendingBlob k => ∀ (i : CInput C) r, blind (c_input C i) (k r)
  end.

(** An export keeps the component state and the live object URLs. *)
Definition untouched {C : Component} (w0 w : World (CState C)) : Prop :=
  world_ok w ∧ ui w = ui w0 ∧ urls w = urls w0.

Definition export_task {C : Component} (t : handler * pending (CState C)) : Prop :=
  match t.1 with
  | Generate => True
  | Export _ => resumable world_ok untouched untouched t.2
  end.

(** [suspends_as T h r]: if the segment that ended in [r] suspended the
    handler [h], the suspended handler satisfies [T]. *)
Definition suspends_as {C : Component} (T : handler * pending (CState C) → Prop)
    (h : handler) (r : World (CState C) * paused (CState C) unit) : Prop :=
  match r.2 with
  | Finished _ => True
  | AwaitingJSON _ _ k => T (h, PendingJSON k)
  | AwaitingBlob _ _ k => T (h, PendingBlob k)
  end.

(** * Properties *)

(** ** The interpreters *)

Section Interpreters.
Context {St : Type}.
Implicit Types (w : World St) (net : Net).

Lemma exec_bind {A B : Type} net (p : Prog St A) (f : A → Prog St B) w :
  exec net (bind p f) w =
  match exec net p w with
  | (w', Resolved a) => exec net (f a) w'
  | (w', Rejected e) => (w', Rejected e)
  end.
Proof.
  revert w. induction p as [a|e|g k IH|b k IH|u k IH|l n k IH|ep body k IH|ep body k IH];
    intros w; simpl; auto.
Qed.

Lemma exec_try_catch {A : Type} net (p : Prog St A) (h : thrown → Prog St A) w :
  exec net (try_catch p h) w =
  match exec net p w with
  | (w', Resolved a) => (w', Resolved a)
  | (w', Rejected e) => exec net (h e) w'
  end.
Proof.
  revert w. induction p as [a|e|g k IH|b k IH|u k IH|l n k IH|ep body k IH|ep body k IH];
    intros w; simpl; auto.
Qed.

Lemma exec_finally {A : Type} net (p : Prog St A) (f : Prog St unit) w :
  exec net (finally p f) w =
  match exec net p w with
  | (w', r) =>
      match exec net f w' with
      | (w'', Resolved _) => (w'', r)
      | (w'', Rejected e) => (w'', Rejected e)
      end
  end.
Proof.
  revert w. induction p as [a|e|g k IH|b k IH|u k IH|l n k IH|ep body k IH|ep body k IH];
    intros w; simpl; auto; rewrite exec_bind; destruct (exec net f w) as [w'' [[]|e']]; reflexivity.
Qed.

(** [exec] is [run_sync] resumed with the backend's reply at every
    [await]. *)
Lemma exec_run_sync {A : Type} net (p : Prog St A) w :
  exec net p w =
  match run_sync p w with
  | (w', Finished r) => (w', r)
  | (w', AwaitingJSON ep body k) => exec net (k (json_reply net ep body)) w'
  | (w', AwaitingBlob ep body k) => exec net (k (blob_reply net ep body)) w'
  end.
Proof.
  revert w. induction p as [a|e|g k IH|b k IH|u k IH|l n k IH|ep body k IH|ep body k IH];
    intros w; simpl; auto.
Qed.

End Interpreters.

(** Symbolic execution of the handlers of the two pages. *)
Ltac run_handler :=
  unfold generate, export; simpl;
  unfold AITone.onGenerate, AITone.onDownload, Chatbot.onGenerate, Chatbot.onDownload.

Ltac by_cases_on_old_url v :=
  destruct v as [[|? ?]|]; simpl;
  repeat split; rewrite <- ?app_assoc; simpl; try reflexivity;
  try apply lookup_insert_eq.

(** ** Object URLs *)

Lemma blob_url_inj (n m : nat) : blob_url n = blob_url m → n = m.
Proof.
  unfold blob_url. intros H. simpl in H. injection H as H. by apply (inj pretty).
Qed.

Lemma count_snoc (f : effect → bool) (l : list effect) (e : effect) :
  count f (l ++ [e]) = (count f l + if f e then 1 else 0)%nat.
Proof.
  unfold count. rewrite List.filter_app, length_app. simpl. by destruct (f e).
Qed.

Lemma handles_ok_quiet pub live next l e :
  (∀ u, creates u e = false ∧ revokes u e = false) →
  handles_ok pub live next l → handles_ok pub live next (l ++ [e]).
Proof.
  intros Hq (Hdom & Hknown & Hcount). split; [done|]. split.
  - intros u. rewrite !count_snoc. destruct (Hq u) as [-> ->].
    rewrite !Nat.add_0_r. apply Hknown.
  - intros n Hn. rewrite !count_snoc. destruct (Hq (blob_url n)) as [-> ->].
    rewrite !Nat.add_0_r. by apply Hcount.
Qed.

(** The URL the browser hands out next is unused so far. *)
Lemma handles_ok_unused pub live next l :
  handles_ok pub live next l →
  pub ≠ Some (blob_url next)
  ∧ count (creates (blob_url next)) l = 0%nat
  ∧ count (revokes (blob_url next)) l = 0%nat
  ∧ live !! blob_url next = None.
Proof.
  intros (Hdom & Hknown & Hcount).
  assert (Hno : ∀ P : Prop,
             (P → ∃ n : nat, (n < next)%nat ∧ blob_url next = blob_url n) → ¬ P).
  { intros P HP HPt. destruct (HP HPt) as (n & Hn & Heq). apply blob_url_inj in Heq. lia. }
  assert (Hpub : pub ≠ Some (blob_url next)).
  { apply Hno. intros H. apply Hknown. by left. }
  split; [done|]. split; [|split].
  - destruct (decide (count (creates (blob_url next)) l = 0%nat)) as [|Hc]; [done|].
    exfalso. revert Hc. apply Hno. intros H. apply Hknown. right. by left.
  - destruct (decide (count (revokes (blob_url next)) l = 0%nat)) as [|Hc]; [done|].
    exfalso. revert Hc. apply Hno. intros H. apply Hknown. right. by right.
  - apply not_elem_of_dom. rewrite Hdom. clear Hdom Hknown Hcount Hno.
    destruct pub as [u|]; [|apply not_elem_of_empty].
    rewrite elem_of_singleton. congruence.
Qed.

(** A published handle is an object URL, hence never the empty string. *)
Lemma handles_ok_nonempty live next l : ¬ handles_ok (Some "") live next l.
Proof.
  intros (_ & Hknown & _). destruct (Hknown "") as (n & _ & Heq); [by left|]. discriminate.
Qed.

Lemma handles_ok_fresh {C : Component} (w : World (CState C)) : world_ok w → fresh_urls w.
Proof.
  intros (Hdom & Hknown & _) n Hn. apply not_elem_of_dom. rewrite Hdom.
  destruct (published w) as [u|] eqn:Hpub; [|apply not_elem_of_empty].
  rewrite elem_of_singleton. intros <-.
  destruct (Hknown (blob_url n)) as (m & Hm & Heq); [by left|].
  apply blob_url_inj in Heq. lia.
Qed.

Lemma known_next (next : nat) (u : string) :
  (∃ n : nat, (n < next)%nat ∧ u = blob_url n) ∨ u = blob_url next →
  ∃ n : nat, (n < S next)%nat ∧ u = blob_url n.
Proof. intros [(n & Hn & ->)| ->]; [exists n | exists next]; split; auto; lia. Qed.

(** Revoke the published handle, if any, create a new one and publish
    it. *)
Lemma handles_ok_replace pub live next l b :
  handles_ok pub live next l →
  let u' := blob_url next in
  match pub with
  | Some old =>
      handles_ok (Some u') (<[u' := b]> (delete old live)) (S next)
        ((l ++ [UrlRevoked old]) ++ [UrlCreated u' b])
  | None =>
      handles_ok (Some u') (<[u' := b]> live) (S next) (l ++ [UrlCreated u' b])
  end.
Proof.
  intros Hok u'. pose proof (handles_ok_unused _ _ _ _ Hok) as (Hpub & Hc0 & Hr0 & Hfree).
  destruct Hok as (Hdom & Hknown & Hcount). fold u' in Hpub, Hc0, Hr0, Hfree.
  assert (Hother : ∀ n : nat, (n < S next)%nat → n ≠ next →
             (n < next)%nat ∧ blob_url n ≠ u').
  { intros n Hn Hne. split; [lia|]. intros Heq. by apply blob_url_inj in Heq. }
  destruct pub as [old|]; (split; [|split]).
  - by rewrite dom_insert_L, dom_delete_L, Hdom, difference_diag_L, (right_id_L ∅ (∪)).
  - intros u Hu. apply known_next. revert Hu. rewrite !count_snoc. simpl.
    repeat case_bool_decide; simplify_eq; intros [?|[?|?]]; simplify_eq; auto;
      left; apply Hknown; auto; right; [left|right]; lia.
  - intros n Hn. destruct (decide (n = next)) as [->|Hne].
    + fold u'. rewrite !count_snoc, Hc0, Hr0. simpl.
      repeat case_bool_decide; by simplify_eq.
    + destruct (Hother n Hn Hne) as [Hlt Hneq]. destruct (Hcount n Hlt) as [Hc Hr].
      rewrite !count_snoc, Hc, Hr. simpl. repeat case_bool_decide; by simplify_eq.
  - by rewrite dom_insert_L, Hdom, (right_id_L ∅ (∪)).
  - intros u Hu. apply known_next. revert Hu. rewrite !count_snoc. simpl.
    repeat case_bool_decide; simplify_eq; intros [?|[?|?]]; simplify_eq; auto;
      left; apply Hknown; auto; right; [left|right]; lia.
  - intros n Hn. destruct (decide (n = next)) as [->|Hne].
    + fold u'. rewrite !count_snoc, Hc0, Hr0. simpl.
      repeat case_bool_decide; by simplify_eq.
    + destruct (Hother n Hn Hne) as [Hlt Hneq]. destruct (Hcount n Hlt) as [Hc Hr].
      rewrite !count_snoc, Hc, Hr. simpl. repeat case_bool_decide; by simplify_eq.
Qed.

Lemma handles_ok_replace_some old live next l b :
  handles_ok (Some old) live next l →
  handles_ok (Some (blob_url next)) (<[blob_url next := b]> (delete old live)) (S next)
    ((l ++ [UrlRevoked old]) ++ [UrlCreated (blob_url next) b]).
Proof. intros Hok. exact (handles_ok_replace (Some old) live next l b Hok). Qed.

Lemma handles_ok_replace_none live next l b :
  handles_ok None live next l →
  handles_ok (Some (blob_url next)) (<[blob_url next := b]> live) (S next)
    (l ++ [UrlCreated (blob_url next) b]).
Proof. intros Hok. exact (handles_ok_replace None live next l b Hok). Qed.

(** The object URL of a download lives from its creation to its
    revocation, inside one segment. *)
Lemma handles_ok_temporary pub live next l b f :
  handles_ok pub live next l →
  let u' := blob_url next in
  handles_ok pub (delete u' (<[u' := b]> live)) (S next)
    (((l ++ [UrlCreated u' b]) ++ [Download u' f]) ++ [UrlRevoked u']).
Proof.
  intros Hok u'. pose proof (handles_ok_unused _ _ _ _ Hok) as (Hpub & Hc0 & Hr0 & Hfree).
  destruct Hok as (Hdom & Hknown & Hcount). fold u' in Hpub, Hc0, Hr0, Hfree.
  split; [|split].
  - by rewrite delete_insert_id.
  - intros u Hu. apply known_next. revert Hu. rewrite !count_snoc. simpl.
    repeat case_bool_decide; simplify_eq; intros [?|[?|?]]; simplify_eq; auto;
      left; apply Hknown; auto; right; [left|right]; lia.
  - intros n Hn. destruct (decide (n = next)) as [->|Hne].
    + fold u'. rewrite !count_snoc, Hc0, Hr0. simpl.
      repeat case_bool_decide; by simplify_eq.
    + assert (Hlt : (n < next)%nat) by lia.
      assert (Hneq : blob_url n ≠ u') by (intros Heq; by apply blob_url_inj in Heq).
      destruct (Hcount n Hlt) as [Hc Hr].
      rewrite !count_snoc, Hc, Hr. simpl. repeat case_bool_decide; simplify_eq; lia.
Qed.

Ltac handles_step :=
  first
    [ assumption
    | apply handles_ok_replace_some
    | apply handles_ok_replace_none
    | apply handles_ok_temporary
    | apply handles_ok_quiet; [intros ?; split; reflexivity|] ].

(** ** The handle slot across the handlers of the two pages *)

Ltac publishes_after_calls :=
  split; [|split; [by rewrite <- !app_assoc|done]]; by repeat constructor.

Lemma AITone_generate_ok (net : Net) (w : World AITone.State) :
  world_ok (C:=AITone_page) w →
  world_ok (C:=AITone_page) (generate AITone_page net w).1
  ∧ releases_then_publishes (C:=AITone_page) w (generate AITone_page net w).1.
Proof.
  unfold world_ok, releases_then_publishes, published. simpl. intros Hok. run_handler.
  destruct (AITone.mode (ui w)); simpl.
  - destruct (json_reply net _ _) as [res|e]; simpl;
      [destruct (blob_reply net _ _) as [wav|e]; simpl|].
    + destruct (AITone.audioUrl (ui w)) as [[|a s]|] eqn:Hurl; simpl.
      * by apply handles_ok_nonempty in Hok.
      * split; [repeat handles_step|]. right. eexists [_; _], wav.
        publishes_after_calls.
      * split; [repeat handles_step|]. right. eexists [_; _], wav.
        publishes_after_calls.
    + split; [repeat handles_step|]. by left.
    + split; [repeat handles_step|]. by left.
  - destruct (blob_reply net _ _) as [wav|e]; simpl.
    + destruct (AITone.audioUrl (ui w)) as [[|a s]|] eqn:Hurl; simpl.
      * by apply handles_ok_nonempty in Hok.
      * split; [repeat handles_step|]. right. eexists [_], wav.
        publishes_after_calls.
      * split; [repeat handles_step|]. right. eexists [_], wav.
        publishes_after_calls.
    + split; [repeat handles_step|]. by left.
Qed.

Lemma AITone_export_ok (kind : Kind) (net : Net) (w : World AITone.State) :
  world_ok (C:=AITone_page) w → world_ok (C:=AITone_page) (export AITone_page kind net w).1.
Proof.
  unfold world_ok, published. simpl. intros Hok. run_handler.
  destruct (AITone.abc (ui w)) as [[|a s]|]; simpl; try done.
  destruct (blob_reply net _ _) as [bytes|e]; simpl; repeat handles_step.
Qed.

Lemma Chatbot_generate_ok (net : Net) (w : World Chatbot.State) :
  world_ok (C:=Chatbot_page) w →
  world_ok (C:=Chatbot_page) (generate Chatbot_page net w).1
  ∧ releases_then_publishes (C:=Chatbot_page) w (generate Chatbot_page net w).1.
Proof.
  unfold world_ok, releases_then_publishes, published. simpl. intros Hok. run_handler.
  simpl.
  destruct (json_reply net _ _) as [res|e]; simpl;
    [destruct (blob_reply net _ _) as [wav|e]; simpl|].
  - destruct (Chatbot.audioUrl (ui w)) as [[|a s]|] eqn:Hurl; simpl.
    + by apply handles_ok_nonempty in Hok.
    + split; [repeat handles_step|]. right. eexists [_; _], wav.
      publishes_after_calls.
    + split; [repeat handles_step|]. right. eexists [_; _], wav.
      publishes_after_calls.
  - split; [repeat handles_step|]. by left.
  - split; [repeat handles_step|]. by left.
Qed.

Lemma Chatbot_export_ok (kind : Kind) (net : Net) (w : World Chatbot.State) :
  world_ok (C:=Chatbot_page) w → world_ok (C:=Chatbot_page) (export Chatbot_page kind net w).1.
Proof.
  unfold world_ok, published. simpl. intros Hok. run_handler.
  destruct (Chatbot.abc (ui w)) as [[|a s]|]; simpl; try done.
  destruct (blob_reply net _ _) as [bytes|e]; simpl; repeat handles_step.
Qed.

Lemma input_keeps_slot (p : Page) (i : CInput (page p)) (s : CState (page p)) :
  c_audioUrl (page p) (c_input (page p) i s) = c_audioUrl (page p) s
  ∧ c_loading (page p) (c_input (page p) i s) = c_loading (page p) s.
Proof. destruct p; destruct i; split; reflexivity. Qed.

Lemma mount_ok (p : Page) : world_ok (mount (page p)).
Proof.
  destruct p; (split; [|split]); simpl; try done.
  - intros u [?|[?|?]]; done.
  - intros n Hn; lia.
  - intros u [?|[?|?]]; done.
  - intros n Hn; lia.
Qed.

Lemma perform_ok (p : Page) (w : World (CState (page p))) (c : command (page p)) :
  world_ok w → world_ok (perform w c).
Proof.
  intros Hok. destruct c as [i|net|kind net]; simpl.
  - unfold world_ok, published in *. simpl.
    by rewrite (proj1 (input_keeps_slot p i (ui w))).
  - destruct p; [by apply AITone_generate_ok | by apply Chatbot_generate_ok].
  - destruct p; [by apply AITone_export_ok | by apply Chatbot_export_ok].
Qed.

Lemma session_ok (p : Page) (cmds : list (command (page p))) :
  world_ok (session (page p) cmds).
Proof.
  unfold session. induction cmds as [|c cmds IH] using rev_ind.
  - apply mount_ok.
  - rewrite foldl_app. simpl. by apply perform_ok.
Qed.

(** What the books say about the live handles. *)
Lemma one_live_handle {C : Component} (w : World (CState C)) :
  world_ok w →
  (size (urls w) ≤ 1)%nat
  ∧ dom (urls w) = match published w with Some u => {[u]} | None => (∅ : gset string) end
  ∧ (∀ u : string,
       count (creates u) (log w) ≠ 0%nat →
       count (creates u) (log w) = 1%nat
       ∧ count (revokes u) (log w) =
           if bool_decide (published w = Some u) then 0%nat else 1%nat).
Proof.
  intros (Hdom & Hknown & Hcount). split; [|split; [done|]].
  - rewrite <- size_dom, Hdom. destruct (published w).
    + by rewrite size_singleton.
    + by rewrite size_empty; lia.
  - intros u Hu. destruct (Hknown u) as (n & Hn & ->); [right; by left|]. by apply Hcount.
Qed.

(** C4: after any number of handler invocations run one after the other,
    the only live object URL is the published audio handle, so at most one
    is live; every URL created was created once, and has been revoked
    exactly once unless it is the published one, which has not been
    revoked; and the next generation, before it creates the handle it
    publishes, revokes the one published so far. *)
Theorem at_most_one_live_handle (p : Page) (cmds : list (command (page p))) :
  let w := session (page p) cmds in
  (size (urls w) ≤ 1)%nat
  ∧ dom (urls w) = match published w with Some u => {[u]} | None => (∅ : gset string) end
  ∧ (∀ u : string,
       count (creates u) (log w) ≠ 0%nat →
       count (creates u) (log w) = 1%nat
       ∧ count (revokes u) (log w) =
           if bool_decide (published w = Some u) then 0%nat else 1%nat)
  ∧ (∀ net : Net,
       let w' := (generate (page p) net w).1 in
       (published w' = published w ∧ urls w' = urls w ∧ next_url w' = next_url w)
       ∨ (∃ (calls : list effect) (wav : Blob),
            Forall (λ e, is_net e = true) calls
            ∧ log w' =
                log w ++ calls
                ++ match published w with Some old => [UrlRevoked old] | None => [] end
                ++ [UrlCreated (blob_url (next_url w)) wav]
            ∧ published w' = Some (blob_url (next_url w)))).
Proof.
  intros w. pose proof (session_ok p cmds) as Hok. fold w in Hok.
  destruct (one_live_handle w Hok) as (Hsize & Hdom & Hcount).
  split; [done|]. split; [done|]. split; [done|].
  intros net. destruct p; [by apply AITone_generate_ok | by apply Chatbot_generate_ok].
Qed.

(** An instance: two generations, an export and a failed generation. *)
Lemma at_most_one_live_handle_witness :
  let cmds : list (command (page AITonePage)) :=
    [DoGenerate (backend_ok "X:1" riff);
     DoDownload wav (backend_ok "" riff);
     DoInput (C:=AITone_page) (AITone.SetMode AITone.direct);
     DoGenerate (backend_ok "" mthd);
     DoGenerate (backend_down OtherValue)] in
  let w := session (page AITonePage) cmds in
  published w = Some "blob:2"
  ∧ (size (urls w) ≤ 1)%nat
  ∧ count (revokes "blob:0") (log w) = 1%nat
  ∧ count (revokes "blob:1") (log w) = 1%nat
  ∧ count (revokes "blob:2") (log w) = 0%nat.
Proof.
  intros cmds w.
  pose proof (at_most_one_live_handle AITonePage cmds) as H.
  cbv zeta in H. fold w in H. destruct H as (Hsize & _ & Hcount & _).
  split; [reflexivity|]. split; [exact Hsize|].
  split; [|split].
  - apply (Hcount "blob:0"). vm_compute. discriminate.
  - apply (Hcount "blob:1"). vm_compute. discriminate.
  - apply (Hcount "blob:2"). vm_compute. discriminate.
Defined.

(** ** One invocation of a handler *)

(** C1, as the code has it: in a FastNotation generation whose two calls
    succeed, the notation call is issued first and the render call second,
    with exactly the text the first call returned; the published notation
    is that text, which is non-empty when the returned text is; and the
    published audio handle is a fresh object URL of the bytes the render
    call returned, created after the previous handle was revoked. *)
Theorem fast_generation_publishes_notation_and_audio :
  (∀ (w : World AITone.State) (net : Net) (res : AbcResponse) (wav : Blob),
     AITone.mode (ui w) = AITone.fast →
     json_reply net "/api/gemini/abc"
       [("prompt", JString (AITone.prompt (ui w)));
        ("key", JString (AITone.keySig (ui w)));
        ("meter", JString (AITone.meter (ui w)));
        ("unit_note_length", JString "1/8");
        ("bars", JNumber (AITone.bars (ui w)))] = Resolved res →
     blob_reply net "/api/abc/audio/wav" [("abc", JString (res_abc res))] = Resolved wav →
     let w' := (generate AITone_page net w).1 in
     let url := blob_url (next_url w) in
     log w' =
       log w ++
       [NetJSON "/api/gemini/abc"
          [("prompt", JString (AITone.prompt (ui w)));
           ("key", JString (AITone.keySig (ui w)));
           ("meter", JString (AITone.meter (ui w)));
           ("unit_note_length", JString "1/8");
           ("bars", JNumber (AITone.bars (ui w)))];
        NetBlob "/api/abc/audio/wav" [("abc", JString (res_abc res))]] ++
       revoke_old (AITone.audioUrl (ui w)) ++ [UrlCreated url wav]
     ∧ AITone.abc (ui w') = Some (res_abc res)
     ∧ (res_abc res ≠ "" → truthy (AITone.abc (ui w')) = true)
     ∧ AITone.audioUrl (ui w') = Some url
     ∧ urls w' !! url = Some wav
     ∧ AITone.loading (ui w') = false
     ∧ AITone.error (ui w') = None)
  ∧ (∀ (w : World Chatbot.State) (net : Net) (res : AbcResponse) (wav : Blob),
     json_reply net "/api/hf/abc"
       [("prompt", JString (Chatbot.prompt (ui w)));
        ("top_p", JNumber (Chatbot.topP (ui w)));
        ("temperature", JNumber (Chatbot.temperature (ui w)));
        ("max_length", JNumber 1024)] = Resolved res →
     blob_reply net "/api/abc/audio/wav" [("abc", JString (res_abc res))] = Resolved wav →
     let w' := (generate Chatbot_page net w).1 in
     let url := blob_url (next_url w) in
     log w' =
       log w ++
       [NetJSON "/api/hf/abc"
          [("prompt", JString (Chatbot.prompt (ui w)));
           ("top_p", JNumber (Chatbot.topP (ui w)));
           ("temperature", JNumber (Chatbot.temperature (ui w)));
           ("max_length", JNumber 1024)];
        NetBlob "/api/abc/audio/wav" [("abc", JString (res_abc res))]] ++
       revoke_old (Chatbot.audioUrl (ui w)) ++ [UrlCreated url wav]
     ∧ Chatbot.abc (ui w') = Some (res_abc res)
     ∧ (res_abc res ≠ "" → truthy (Chatbot.abc (ui w')) = true)
     ∧ Chatbot.audioUrl (ui w') = Some url
     ∧ urls w' !! url = Some wav
     ∧ Chatbot.loading (ui w') = false
     ∧ Chatbot.error (ui w') = None).
Proof.
  split.
  - intros w net res wav Hmode Hjson Hblob. run_handler. rewrite Hmode. simpl.
    rewrite Hjson. simpl. rewrite Hblob. simpl.
    by_cases_on_old_url (AITone.audioUrl (ui w)); by destruct (res_abc res).
  - intros w net res wav Hjson Hblob. run_handler. simpl.
    rewrite Hjson. simpl. rewrite Hblob. simpl.
    by_cases_on_old_url (Chatbot.audioUrl (ui w)); by destruct (res_abc res).
Qed.

(** An instance: a second FastNotation generation on the AITone page. *)
Lemma fast_generation_publishes_notation_and_audio_witness :
  let w := session AITone_page [DoGenerate (backend_ok "X:1" riff)] in
  let w' := (generate AITone_page (backend_ok "X:2" mthd) w).1 in
  log w' =
    log w ++
    [NetJSON "/api/gemini/abc"
       [("prompt", JString ""); ("key", JString "D"); ("meter", JString "4/4");
        ("unit_note_length", JString "1/8"); ("bars", JNumber 16)];
     NetBlob "/api/abc/audio/wav" [("abc", JString "X:2")];
     UrlRevoked "blob:0"; UrlCreated "blob:1" mthd]
  ∧ AITone.abc (ui w') = Some "X:2"
  ∧ AITone.audioUrl (ui w') = Some "blob:1".
Proof.
  pose proof (proj1 fast_generation_publishes_notation_and_audio
                (session AITone_page [DoGenerate (backend_ok "X:1" riff)])
                (backend_ok "X:2" mthd) (mkAbcResponse "X:2") mthd
                eq_refl eq_refl eq_refl) as H.
  cbv zeta in H. destruct H as (Hlog & Habc & _ & Hurl & _).
  split; [exact Hlog|]. split; [exact Habc|exact Hurl].
Defined.

(** C1 as stated fails: the notation call may succeed with an empty text,
    which is then published as the notation. *)
Lemma empty_notation_is_published :
  let net := backend_ok "" riff in
  let w := mount AITone_page in
  json_reply net "/api/gemini/abc"
    [("prompt", JString (AITone.prompt (ui w)));
     ("key", JString (AITone.keySig (ui w)));
     ("meter", JString (AITone.meter (ui w)));
     ("unit_note_length", JString "1/8");
     ("bars", JNumber (AITone.bars (ui w)))] = Resolved (mkAbcResponse "")
  ∧ blob_reply net "/api/abc/audio/wav" [("abc", JString "")] = Resolved riff
  ∧ AITone.abc (ui (generate AITone_page net w).1) = Some ""
  ∧ truthy (AITone.abc (ui (generate AITone_page net w).1)) = false
  ∧ AITone.audioUrl (ui (generate AITone_page net w).1) = Some "blob:0"
  ∧ AITone.error (ui (generate AITone_page net w).1) = None.
Proof. repeat split; reflexivity. Qed.

(** C2, as the code has it: a generate invocation that fails leaves the
    audio handle and the live object URLs as they were (the error cell
    then holds [failure_message e], and [loading] is cleared).  The
    notation is as it was only when the notation call of a FastNotation
    generation fails; when the render call fails after the notation call
    succeeded, the notation is the new text; when a DirectAudio generation
    fails, the notation is cleared. *)
Theorem failed_generation_keeps_audio_handle :
  (∀ (w : World AITone.State) (net : Net) (e : thrown),
     AITone.mode (ui w) = AITone.fast →
     json_reply net "/api/gemini/abc"
       [("prompt", JString (AITone.prompt (ui w)));
        ("key", JString (AITone.keySig (ui w)));
        ("meter", JString (AITone.meter (ui w)));
        ("unit_note_length", JString "1/8");
        ("bars", JNumber (AITone.bars (ui w)))] = Rejected e →
     let w' := (generate AITone_page net w).1 in
     AITone.audioUrl (ui w') = AITone.audioUrl (ui w)
     ∧ urls w' = urls w
     ∧ next_url w' = next_url w
     ∧ AITone.error (ui w') = Some (failure_message e)
     ∧ AITone.loading (ui w') = false
     ∧ AITone.abc (ui w') = AITone.abc (ui w))
  ∧ (∀ (w : World AITone.State) (net : Net) (res : AbcResponse) (e : thrown),
     AITone.mode (ui w) = AITone.fast →
     json_reply net "/api/gemini/abc"
       [("prompt", JString (AITone.prompt (ui w)));
        ("key", JString (AITone.keySig (ui w)));
        ("meter", JString (AITone.meter (ui w)));
        ("unit_note_length", JString "1/8");
        ("bars", JNumber (AITone.bars (ui w)))] = Resolved res →
     blob_reply net "/api/abc/audio/wav" [("abc", JString (res_abc res))] = Rejected e →
     let w' := (generate AITone_page net w).1 in
     AITone.audioUrl (ui w') = AITone.audioUrl (ui w)
     ∧ urls w' = urls w
     ∧ next_url w' = next_url w
     ∧ AITone.error (ui w') = Some (failure_message e)
     ∧ AITone.loading (ui w') = false
     ∧ AITone.abc (ui w') = Some (res_abc res))
  ∧ (∀ (w : World AITone.State) (net : Net) (e : thrown),
     AITone.mode (ui w) = AITone.direct →
     blob_reply net "/api/gemini/audio/wav"
       [("prompt", JString (AITone.prompt (ui w)));
        ("bpm", JNumber (AITone.bpm (ui w)));
        ("density", JNumber (AITone.density (ui w)));
        ("brightness", JNumber (AITone.brightness (ui w)));
        ("guidance", JNumber (AITone.guidance (ui w)));
        ("duration_seconds", JNumber (AITone.duration (ui w)))] = Rejected e →
     let w' := (generate AITone_page net w).1 in
     AITone.audioUrl (ui w') = AITone.audioUrl (ui w)
     ∧ urls w' = urls w
     ∧ next_url w' = next_url w
     ∧ AITone.error (ui w') = Some (failure_message e)
     ∧ AITone.loading (ui w') = false
     ∧ AITone.abc (ui w') = None).
Proof.
  split; [|split].
  - intros w net e Hmode Hjson. run_handler. rewrite Hmode. simpl.
    rewrite Hjson. simpl. repeat split; reflexivity.
  - intros w net res e Hmode Hjson Hblob. run_handler. rewrite Hmode. simpl.
    rewrite Hjson. simpl. rewrite Hblob. simpl. repeat split; reflexivity.
  - intros w net e Hmode Hblob. run_handler. rewrite Hmode. simpl.
    rewrite Hblob. simpl. repeat split; reflexivity.
Qed.

(** An instance: the render call fails after an earlier successful run. *)
Lemma failed_generation_keeps_audio_handle_witness :
  let w := session AITone_page [DoGenerate (backend_ok "X:1" riff)] in
  let w' := (generate AITone_page (backend_render_fails "X:2" (ErrorObject "HTTP 500")) w).1 in
  AITone.audioUrl (ui w) = Some "blob:0"
  ∧ AITone.audioUrl (ui w') = AITone.audioUrl (ui w)
  ∧ urls w' = urls w
  ∧ AITone.error (ui w') = Some "HTTP 500".
Proof.
  split; [reflexivity|].
  pose proof (proj1 (proj2 failed_generation_keeps_audio_handle)
                (session AITone_page [DoGenerate (backend_ok "X:1" riff)])
                (backend_render_fails "X:2" (ErrorObject "HTTP 500"))
                (mkAbcResponse "X:2") (ErrorObject "HTTP 500")
                eq_refl eq_refl eq_refl) as H.
  cbv zeta in H. destruct H as (Hurl & Hlive & _ & Herr & _).
  split; [exact Hurl|]. split; [exact Hlive|exact Herr].
Defined.

(** C2 as stated fails: after a successful run published the notation
    X:1, a FastNotation generation whose render call fails leaves the new
    text X:2 as the notation, next to the audio of the earlier run; and a
    failing DirectAudio generation leaves no notation. *)
Lemma render_failure_overwrites_notation :
  let w := session AITone_page [DoGenerate (backend_ok "X:1" riff)] in
  let failing := backend_render_fails "X:2" (ErrorObject "HTTP 500") in
  let w' := (generate AITone_page failing w).1 in
  let wd := set_ui (AITone.set_mode AITone.direct) w in
  let wd' := (generate AITone_page failing wd).1 in
  AITone.abc (ui w) = Some "X:1"
  ∧ AITone.error (ui w') = Some "HTTP 500"
  ∧ AITone.abc (ui w') = Some "X:2"
  ∧ AITone.abc (ui w') ≠ AITone.abc (ui w)
  ∧ AITone.audioUrl (ui w') = Some "blob:0"
  ∧ AITone.abc (ui wd) = Some "X:1"
  ∧ AITone.error (ui wd') = Some "HTTP 500"
  ∧ AITone.abc (ui wd') = None
  ∧ AITone.abc (ui wd') ≠ AITone.abc (ui wd).
Proof. repeat split; first [reflexivity | discriminate]. Qed.

(** C3: a successful DirectAudio generation issues one binary call, with
    the fields prompt, bpm, density, brightness, guidance and
    duration_seconds; afterwards the notation is absent whatever it was,
    and the session holds the audio of that call. *)
Theorem direct_generation_clears_notation
    (w : World AITone.State) (net : Net) (wav : Blob) :
  AITone.mode (ui w) = AITone.direct →
  blob_reply net "/api/gemini/audio/wav"
    [("prompt", JString (AITone.prompt (ui w)));
     ("bpm", JNumber (AITone.bpm (ui w)));
     ("density", JNumber (AITone.density (ui w)));
     ("brightness", JNumber (AITone.brightness (ui w)));
     ("guidance", JNumber (AITone.guidance (ui w)));
     ("duration_seconds", JNumber (AITone.duration (ui w)))] = Resolved wav →
  let w' := (generate AITone_page net w).1 in
  let url := blob_url (next_url w) in
  log w' =
    log w ++
    [NetBlob "/api/gemini/audio/wav"
       [("prompt", JString (AITone.prompt (ui w)));
        ("bpm", JNumber (AITone.bpm (ui w)));
        ("density", JNumber (AITone.density (ui w)));
        ("brightness", JNumber (AITone.brightness (ui w)));
        ("guidance", JNumber (AITone.guidance (ui w)));
        ("duration_seconds", JNumber (AITone.duration (ui w)))]] ++
    revoke_old (AITone.audioUrl (ui w)) ++ [UrlCreated url wav]
  ∧ AITone.abc (ui w') = None
  ∧ AITone.audioUrl (ui w') = Some url
  ∧ urls w' !! url = Some wav
  ∧ AITone.loading (ui w') = false
  ∧ AITone.error (ui w') = None.
Proof.
  intros Hmode Hreply. run_handler. rewrite Hmode. simpl. rewrite Hreply. simpl.
  by_cases_on_old_url (AITone.audioUrl (ui w)).
Qed.

(** An instance: a DirectAudio generation after a FastNotation one. *)
Lemma direct_generation_clears_notation_witness :
  let w := perform (session AITone_page [DoGenerate (backend_ok "X:1" riff)])
             (DoInput (C:=AITone_page) (AITone.SetMode AITone.direct)) in
  AITone.abc (ui w) = Some "X:1"
  ∧ AITone.abc (ui (generate AITone_page (backend_ok "X:2" mthd) w).1) = None.
Proof.
  split; [reflexivity|].
  apply (direct_generation_clears_notation _ (backend_ok "X:2" mthd) mthd); reflexivity.
Defined.

(** C6, as the code has it: when the notation call of a FastNotation
    generation fails, the render call is never issued (the notation call
    is the only effect), and no audio handle is created, revoked or
    changed.  The error cell holds the message of the error whenever what
    was thrown is an [Error], whatever the message, the empty one
    included; it holds the fallback text only when what was thrown is no
    [Error]. *)
Theorem notation_failure_stops_generation
    (w : World AITone.State) (net : Net) (e : thrown) :
  AITone.mode (ui w) = AITone.fast →
  json_reply net "/api/gemini/abc"
    [("prompt", JString (AITone.prompt (ui w)));
     ("key", JString (AITone.keySig (ui w)));
     ("meter", JString (AITone.meter (ui w)));
     ("unit_note_length", JString "1/8");
     ("bars", JNumber (AITone.bars (ui w)))] = Rejected e →
  let w' := (generate AITone_page net w).1 in
  log w' =
    log w ++
    [NetJSON "/api/gemini/abc"
       [("prompt", JString (AITone.prompt (ui w)));
        ("key", JString (AITone.keySig (ui w)));
        ("meter", JString (AITone.meter (ui w)));
        ("unit_note_length", JString "1/8");
        ("bars", JNumber (AITone.bars (ui w)))]]
  ∧ AITone.error (ui w') =
      Some (match e with ErrorObject message => message | OtherValue => "Generation failed" end)
  ∧ AITone.loading (ui w') = false
  ∧ AITone.audioUrl (ui w') = AITone.audioUrl (ui w)
  ∧ urls w' = urls w
  ∧ next_url w' = next_url w.
Proof.
  intros Hmode Hreply. run_handler. rewrite Hmode. simpl. rewrite Hreply. simpl.
  destruct e; repeat split; reflexivity.
Qed.

(** An instance: the backend is unreachable after an earlier successful run. *)
Lemma notation_failure_stops_generation_witness :
  let w := session AITone_page [DoGenerate (backend_ok "X:1" riff)] in
  let w' := (generate AITone_page (backend_down (ErrorObject "Failed to fetch")) w).1 in
  AITone.error (ui w') = Some "Failed to fetch"
  ∧ AITone.audioUrl (ui w') = Some (blob_url 0)
  ∧ AITone.audioUrl (ui w) = Some (blob_url 0).
Proof.
  pose proof (notation_failure_stops_generation
                (session AITone_page [DoGenerate (backend_ok "X:1" riff)])
                (backend_down (ErrorObject "Failed to fetch"))
                (ErrorObject "Failed to fetch") eq_refl eq_refl) as H.
  cbv zeta in H. destruct H as (_ & Herr & _ & Hurl & _).
  split; [exact Herr|]. split; [rewrite Hurl|]; reflexivity.
Defined.

(** C6 as stated fails: an [Error] that carries no description, its
    message being empty, is not replaced by the fallback text.  The error
    cell holds the empty message, and the page renders no error line. *)
Lemma empty_message_is_not_replaced_by_fallback :
  let net := backend_down (ErrorObject "") in
  let w := mount AITone_page in
  let w' := (generate AITone_page net w).1 in
  json_reply net "/api/gemini/abc"
    [("prompt", JString (AITone.prompt (ui w)));
     ("key", JString (AITone.keySig (ui w)));
     ("meter", JString (AITone.meter (ui w)));
     ("unit_note_length", JString "1/8");
     ("bars", JNumber (AITone.bars (ui w)))] = Rejected (ErrorObject "")
  ∧ AITone.error (ui w') = Some ""
  ∧ AITone.error (ui w') ≠ Some "Generation failed"
  ∧ error_text (AITone_view (ui w')) = None
  ∧ AITone.loading (ui w') = false.
Proof. repeat split; first [reflexivity | discriminate]. Qed.

(** C7: [export(kind)] with no notation present (the [abc] cell is [null],
    or holds the empty text) does nothing: no network call, no download,
    no change at all. *)
Theorem export_without_notation_is_noop :
  (∀ (w : World AITone.State) (kind : Kind) (net : Net),
     truthy (AITone.abc (ui w)) = false →
     export AITone_page kind net w = (w, Resolved tt))
  ∧ (∀ (w : World Chatbot.State) (kind : Kind) (net : Net),
     truthy (Chatbot.abc (ui w)) = false →
     export Chatbot_page kind net w = (w, Resolved tt)).
Proof.
  split; intros w kind net Habc; run_handler.
  - destruct (AITone.abc (ui w)) as [[|a s]|]; simpl in *; congruence.
  - destruct (Chatbot.abc (ui w)) as [[|a s]|]; simpl in *; congruence.
Qed.

(** An instance: export on the freshly mounted pages. *)
Lemma export_without_notation_is_noop_witness :
  export AITone_page midi (backend_ok "X:1" riff) (mount AITone_page)
    = (mount AITone_page, Resolved tt)
  ∧ export Chatbot_page wav (backend_ok "X:1" riff) (mount Chatbot_page)
    = (mount Chatbot_page, Resolved tt).
Proof.
  split.
  - apply (proj1 export_without_notation_is_noop). reflexivity.
  - apply (proj2 export_without_notation_is_noop). reflexivity.
Defined.

Lemma temporary_url_gone {St : Type} (w : World St) (b : Blob) :
  fresh_urls w →
  delete (blob_url (next_url w)) (<[blob_url (next_url w) := b]> (urls w)) = urls w.
Proof. intros Hfresh. apply delete_insert_id. apply Hfresh. lia. Qed.



(** C10: when the network call of [export(kind)] fails, nothing catches
    the failure: the promise of the handler rejects with it, the
    component state (error cell included) and the object URLs are as
    before, and the call is the only effect, so nothing is downloaded. *)
Theorem export_failure_is_not_caught :
  (∀ (w : World AITone.State) (kind : Kind) (net : Net) (text : string) (e : thrown),
     AITone.abc (ui w) = Some text →
     truthy (Some text) = true →
     blob_reply net ("/api/abc/audio/" +:+ kind_str kind) [("abc", JString text)]
       = Rejected e →
     let r := export AITone_page kind net w in
     r.2 = Rejected e
     ∧ ui r.1 = ui w
     ∧ urls r.1 = urls w
     ∧ next_url r.1 = next_url w
     ∧ log r.1 =
         log w ++ [NetBlob ("/api/abc/audio/" +:+ kind_str kind) [("abc", JString text)]])
  ∧ (∀ (w : World Chatbot.State) (kind : Kind) (net : Net) (text : string) (e : thrown),
     Chatbot.abc (ui w) = Some text →
     truthy (Some text) = true →
     blob_reply net ("/api/abc/audio/" +:+ kind_str kind) [("abc", JString text)]
       = Rejected e →
     let r := export Chatbot_page kind net w in
     r.2 = Rejected e
     ∧ ui r.1 = ui w
     ∧ urls r.1 = urls w
     ∧ next_url r.1 = next_url w
     ∧ log r.1 =
         log w ++ [NetBlob ("/api/abc/audio/" +:+ kind_str kind) [("abc", JString text)]]).
Proof.
  split; intros w kind net text e Habc Htruthy Hreply; run_handler;
    rewrite Habc, Htruthy; simpl; rewrite Hreply; simpl; repeat split; reflexivity.
Qed.

(** An instance: WAV export on the Chatbot page with the backend unreachable. *)
Lemma export_failure_is_not_caught_witness :
  let w := session Chatbot_page [DoGenerate (backend_ok "X:1" riff)] in
  let r := export Chatbot_page wav (backend_down (ErrorObject "Failed to fetch")) w in
  r.2 = Rejected (ErrorObject "Failed to fetch")
  ∧ ui r.1 = ui w
  ∧ Chatbot.error (ui r.1) = None
  ∧ urls r.1 = urls w.
Proof.
  pose proof (proj2 export_failure_is_not_caught
                (session Chatbot_page [DoGenerate (backend_ok "X:1" riff)])
                wav (backend_down (ErrorObject "Failed to fetch")) "X:1"
                (ErrorObject "Failed to fetch") eq_refl eq_refl eq_refl) as H.
  cbv zeta in H. destruct H as (Hrej & Hui & Hurls & _).
  split; [exact Hrej|]. split; [exact Hui|]. split; [by rewrite Hui|exact Hurls].
Defined.

(** ** Entering a generation *)

(** C9, as the code has it: the synchronous start of a generate
    invocation clears the error message, sets [loading], sends the first
    request and suspends; the audio handle and the live object URLs are as
    before.  In FastNotation mode the notation is as before too, and stays
    so until the notation call returns: resumed with its reply, the
    handler publishes the new text, sends the render request and suspends
    again, the audio handle still as it was.  In DirectAudio mode the
    notation is cleared at the start. *)
Theorem entering_generation_keeps_audio (w : World AITone.State) :
  let r := run_sync (AITone.onGenerate (ui w)) w in
  AITone.error (ui r.1) = None
  ∧ AITone.loading (ui r.1) = true
  ∧ AITone.audioUrl (ui r.1) = AITone.audioUrl (ui w)
  ∧ urls r.1 = urls w
  ∧ AITone.abc (ui r.1) =
      match AITone.mode (ui w) with
      | AITone.fast => AITone.abc (ui w)
      | AITone.direct => None
      end
  ∧ match AITone.mode (ui w), r.2 with
    | AITone.fast, AwaitingJSON ep _ k =>
        ep = "/api/gemini/abc"
        ∧ ∀ (res : AbcResponse) (w2 : World AITone.State),
            let r2 := run_sync (k (Resolved res)) w2 in
            AITone.abc (ui r2.1) = Some (res_abc res)
            ∧ AITone.audioUrl (ui r2.1) = AITone.audioUrl (ui w2)
            ∧ urls r2.1 = urls w2
            ∧ AITone.loading (ui r2.1) = AITone.loading (ui w2)
            ∧ match r2.2 with
              | AwaitingBlob ep2 body2 _ =>
                  ep2 = "/api/abc/audio/wav" ∧ body2 = [("abc", JString (res_abc res))]
              | _ => False
              end
    | AITone.direct, AwaitingBlob ep _ _ => ep = "/api/gemini/audio/wav"
    | _, _ => False
    end.
Proof.
  simpl. unfold AITone.onGenerate. destruct (AITone.mode (ui w)); simpl;
    repeat split; reflexivity.
Qed.

(** C9 as stated fails: entering a DirectAudio generation clears the
    notation a FastNotation run had published. *)
Lemma entering_direct_generation_clears_notation :
  let w := perform (session AITone_page [DoGenerate (backend_ok "X:1" riff)])
             (DoInput (C:=AITone_page) (AITone.SetMode AITone.direct)) in
  let r := run_sync (AITone.onGenerate (ui w)) w in
  AITone.abc (ui w) = Some "X:1"
  ∧ AITone.loading (ui r.1) = true
  ∧ AITone.abc (ui r.1) = None
  ∧ AITone.abc (ui r.1) ≠ AITone.abc (ui w)
  ∧ AITone.audioUrl (ui r.1) = Some "blob:0".
Proof. repeat split; first [reflexivity | discriminate]. Qed.

(** ** The event loop *)

Section Segments.
Context {St : Type} (Rely : World St → Prop) (Pause Done : World St → World St → Prop).

(** What [segments] promises about the next synchronous segment. *)
Lemma segments_run_sync (p : Prog St unit) (w0 w : World St) :
  segments Rely Pause Done p w0 w →
  match run_sync p w with
  | (w', Finished _) => Done w0 w'
  | (w', AwaitingJSON _ _ k) => Pause w0 w' ∧ resumable Rely Pause Done (PendingJSON k)
  | (w', AwaitingBlob _ _ k) => Pause w0 w' ∧ resumable Rely Pause Done (PendingBlob k)
  end.
Proof.
  revert w. induction p as [a|e|g k IH|b k IH|u k IH|l n k IH|ep body k IH|ep body k IH];
    intros w Hp; simpl in *; first [exact Hp | by apply IH].
Qed.

End Segments.

Ltac segment_ok := split; [by repeat handles_step | first [done | by split]].

Lemma onGenerate_segments (p : Page) (w : World (CState (page p))) :
  world_ok w →
  segments (generating (published w)) (λ _, generating (published w)) (λ _, generated)
    (c_onGenerate (page p) (ui w)) w w.
Proof.
  unfold generating, generated, world_ok, published. intros Hok.
  destruct p; simpl in *.
  - unfold AITone.onGenerate. destruct (AITone.mode (ui w)); simpl.
    + split; [segment_ok|].
      intros [res|e] w1 (H1 & Ha1 & Hl1); simpl; [|segment_ok].
      split; [segment_ok|].
      intros [wav|e] w2 (H2 & Ha2 & Hl2); simpl; [|segment_ok].
      rewrite <- Ha2 in *.
      destruct (AITone.audioUrl (ui w2)) as [[|a s]|]; simpl;
        [by apply handles_ok_nonempty in H2| |]; segment_ok.
    + split; [segment_ok|].
      intros [wav|e] w1 (H1 & Ha1 & Hl1); simpl; [|segment_ok].
      rewrite <- Ha1 in *.
      destruct (AITone.audioUrl (ui w1)) as [[|a s]|]; simpl;
        [by apply handles_ok_nonempty in H1| |]; segment_ok.
  - unfold Chatbot.onGenerate. simpl.
    split; [segment_ok|].
    intros [res|e] w1 (H1 & Ha1 & Hl1); simpl; [|segment_ok].
    split; [segment_ok|].
    intros [wav|e] w2 (H2 & Ha2 & Hl2); simpl; [|segment_ok].
    rewrite <- Ha2 in *.
    destruct (Chatbot.audioUrl (ui w2)) as [[|a s]|]; simpl;
      [by apply handles_ok_nonempty in H2| |]; segment_ok.
Qed.

Lemma onDownload_segments (p : Page) (kind : Kind) (cap : CState (page p))
    (w : World (CState (page p))) :
  world_ok w →
  segments world_ok exporting exporting (c_onDownload (page p) kind cap) w w.
Proof.
  unfold exporting, world_ok, published. intros Hok. destruct p; simpl in *.
  - unfold AITone.onDownload. destruct (AITone.abc cap) as [[|a s]|]; simpl; try done.
    split; [segment_ok|].
    intros [bytes|e] w1 H1; simpl; segment_ok.
  - unfold Chatbot.onDownload. destruct (Chatbot.abc cap) as [[|a s]|]; simpl; try done.
    split; [segment_ok|].
    intros [bytes|e] w1 H1; simpl; segment_ok.
Qed.

Section Tasks.
Context {St : Type}.
Implicit Types (l : list (handler * pending St)) (t : handler * pending St).

Lemma generations_snoc l t :
  length (List.filter is_generate (l ++ [t])) =
  (length (List.filter is_generate l) + if is_generate t then 1 else 0)%nat.
Proof. rewrite List.filter_app, length_app. simpl. by destruct (is_generate t). Qed.

Lemma generations_delete l (n : nat) t :
  l !! n = Some t →
  length (List.filter is_generate l) =
  (length (List.filter is_generate (delete n l)) + if is_generate t then 1 else 0)%nat.
Proof.
  intros Hn. rewrite <- (take_drop_middle l n t Hn) at 1.
  rewrite delete_take_drop, !List.filter_app, !length_app. simpl.
  destruct (is_generate t); simpl; lia.
Qed.

End Tasks.

Section Loop.
Context (p : Page).
Local Abbreviation C := (page p).
Implicit Types (m : Machine C) (w : World (CState C)).

(** With no generation suspended, the published handle may change. *)
Lemma exports_only (a a' : option string) (l : list (handler * pending (CState C))) :
  length (List.filter is_generate l) = 0%nat →
  Forall (task_ok a) l → Forall (task_ok a') l.
Proof.
  induction l as [|[[|kind] t] l IH]; intros Hnone Hl; [constructor|done|].
  apply Forall_cons in Hl as [Ht Hl]. constructor; [exact Ht|by apply IH].
Qed.

Lemma settle_generate (a : option string) (q : Prog (CState C) unit) w0 w others rej :
  Forall (task_ok a) others →
  length (List.filter is_generate others) = 0%nat →
  segments (generating a) (λ _, generating a) (λ _, generated) q w0 w →
  machine_ok (settle Generate (run_sync q w) others rej).
Proof.
  intros Hothers Hnone Hq. apply segments_run_sync in Hq.
  destruct (run_sync q w) as [w' [[[]|e]|ep body k|ep body k]]; simpl;
    unfold machine_ok, in_flight; simpl.
  - destruct Hq as [Hok Hl]. rewrite Hl. split; [done|]. split; [done|]. by apply (exports_only a).
  - destruct Hq as [Hok Hl]. rewrite Hl. split; [done|]. split; [done|]. by apply (exports_only a).
  - destruct Hq as [(Hok & <- & Hl) Hk].
    rewrite Hl, generations_snoc, Hnone. split; [done|]. split; [done|].
    apply Forall_app. split; [done|]. by constructor.
  - destruct Hq as [(Hok & <- & Hl) Hk].
    rewrite Hl, generations_snoc, Hnone. split; [done|]. split; [done|].
    apply Forall_app. split; [done|]. by constructor.
Qed.

Lemma settle_export (kind : Kind) (q : Prog (CState C) unit) w0 w others rej :
  Forall (task_ok (published w0)) others →
  length (List.filter is_generate others) = (if c_loading C (ui w0) then 1 else 0)%nat →
  segments world_ok exporting exporting q w0 w →
  machine_ok (settle (Export kind) (run_sync q w) others rej).
Proof.
  intros Hothers Hcount Hq. apply segments_run_sync in Hq.
  destruct (run_sync q w) as [w' [[[]|e]|ep body k|ep body k]]; simpl;
    unfold machine_ok, in_flight; simpl.
  - destruct Hq as (Hok & Ha & Hl). by rewrite Hl, Ha.
  - destruct Hq as (Hok & Ha & Hl). by rewrite Hl, Ha.
  - destruct Hq as [(Hok & Ha & Hl) Hk].
    rewrite Hl, Ha, generations_snoc, Hcount, Nat.add_0_r. split; [done|]. split; [done|].
    apply Forall_app. split; [done|]. by constructor.
  - destruct Hq as [(Hok & Ha & Hl) Hk].
    rewrite Hl, Ha, generations_snoc, Hcount, Nat.add_0_r. split; [done|]. split; [done|].
    apply Forall_app. split; [done|]. by constructor.
Qed.

(** Resuming a suspended handler. *)
Lemma resume_ok m (n : nat) (h : handler) (t : pending (CState C))
    (q : Prog (CState C) unit) :
  machine_ok m →
  tasks m !! n = Some (h, t) →
  (∀ Rely Pause Done, resumable Rely Pause Done t → Rely (world m) →
     segments Rely Pause Done q (world m) (world m)) →
  machine_ok (settle h (run_sync q (world m)) (delete n (tasks m)) (unhandled m)).
Proof.
  intros (Hok & Hcount & Htasks) Hn Hq.
  pose proof (Forall_lookup_1 _ _ _ _ Htasks Hn) as Ht.
  pose proof (generations_delete _ _ _ Hn) as Hdel.
  assert (Hrest : Forall (task_ok (published (world m))) (delete n (tasks m)))
    by by apply Forall_delete.
  unfold in_flight in Hcount. unfold task_ok in Ht. simpl in Ht.
  destruct h as [|kind].
  - change (is_generate (Generate, t)) with true in Hdel. rewrite Nat.add_1_r in Hdel.
    destruct (c_loading C (ui (world m))) eqn:Hl; simpl in Hcount; [|lia].
    apply settle_generate with (a := published (world m)) (w0 := world m); [done|lia|].
    by apply Hq.
  - change (is_generate (Export kind, t)) with false in Hdel. rewrite Nat.add_0_r in Hdel.
    apply settle_export with (w0 := world m); [done|lia|]. by apply Hq.
Qed.

Lemma step_ok m (ev : event C) : machine_ok m → machine_ok (step m ev).
Proof.
  intros Hm. pose proof Hm as (Hok & Hcount & Htasks).
  destruct ev as [i| |kind|n r|n r]; simpl.
  - destruct (input_keeps_slot p i (ui (world m))) as [Ha Hl].
    unfold machine_ok, in_flight, world_ok, published in *. simpl. by rewrite Ha, Hl.
  - unfold Button. destruct (c_loading C (ui (world m))) eqn:Hl; [done|].
    apply settle_generate with (a := published (world m)) (w0 := world m);
      [done|done|by apply onGenerate_segments].
  - destruct (c_download_shown C (ui (world m))); [|done].
    apply settle_export with (w0 := world m); [done|done|by apply onDownload_segments].
  - destruct (tasks m !! n) as [[h [k|k]]|] eqn:Hn; try done.
    apply (resume_ok m n h (PendingJSON k)); [done|done|].
    intros Rely Pause Done Hk Hrely. by apply Hk.
  - destruct (tasks m !! n) as [[h [k|k]]|] eqn:Hn; try done.
    apply (resume_ok m n h (PendingBlob k)); [done|done|].
    intros Rely Pause Done Hk Hrely. by apply Hk.
Qed.

Lemma run_ok (evs : list (event C)) : machine_ok (run evs).
Proof.
  unfold run. induction evs as [|ev evs IH] using rev_ind.
  - split; [apply mount_ok|]. split; [by destruct p|constructor].
  - rewrite foldl_app. simpl. by apply step_ok.
Qed.

End Loop.

(** X11: the handle slot in the event loop.  Whatever is in between the click
    and the replies of a generation (inputs, exports and their replies,
    clicks on the disabled button), the only live object URL at every
    step is the published audio handle, and every other URL created so far
    has been revoked exactly once. *)
Lemma event_loop_keeps_one_handle (p : Page) (evs : list (event (page p))) :
  let w := world (run evs) in
  (size (urls w) ≤ 1)%nat
  ∧ dom (urls w) = match published w with Some u => {[u]} | None => (∅ : gset string) end
  ∧ (∀ u : string,
       count (creates u) (log w) ≠ 0%nat →
       count (creates u) (log w) = 1%nat
       ∧ count (revokes u) (log w) =
           if bool_decide (published w = Some u) then 0%nat else 1%nat).
Proof. intros w. apply one_live_handle. by destruct (run_ok p evs) as (Hok & _). Qed.

(** C5: however clicks, inputs and replies interleave, at most one
    generation is in flight, one is in flight exactly while [loading] is
    set, and a click on Generate while one is in flight starts nothing: it
    leaves the page, the suspended handlers and the requests as they
    are. *)
Theorem generations_are_mutually_exclusive (p : Page) (evs : list (event (page p))) :
  let m := run evs in
  (in_flight m ≤ 1)%nat
  ∧ (c_loading (page p) (ui (world m)) = true ↔ in_flight m = 1%nat)
  ∧ (in_flight m = 1%nat → step m ClickGenerate = m).
Proof.
  intros m. destruct (run_ok p evs) as (_ & Hcount & _). fold m in Hcount.
  rewrite Hcount. simpl. unfold Button.
  destruct (c_loading (page p) (ui (world m))); repeat split; (done || lia).
Qed.

(** An instance: a second click while the notation call is pending. *)
Lemma generations_are_mutually_exclusive_witness :
  let m := run (C:=page AITonePage) [ClickGenerate] in
  in_flight m = 1%nat
  ∧ AITone.loading (ui (world m)) = true
  ∧ step m ClickGenerate = m.
Proof.
  split; [reflexivity|]. split; [reflexivity|].
  apply (generations_are_mutually_exclusive AITonePage [ClickGenerate]). reflexivity.
Defined.

(** A generation in the event loop, with nothing in between the click and
    the replies, is the invocation [generate] runs to completion. *)
Lemma generate_is_click_and_replies (w : World AITone.State) (rej : list thrown) (net : Net) :
  AITone.loading (ui w) = false →
  ∃ evs : list (event AITone_page),
    foldl step (mkMachine (C:=AITone_page) w [] rej) evs
    = mkMachine (C:=AITone_page) (generate AITone_page net w).1 [] rej.
Proof.
  intros Hl. unfold generate. simpl. unfold AITone.onGenerate.
  destruct (AITone.mode (ui w)) eqn:Hmode.
  - destruct (json_reply net "/api/gemini/abc"
                [("prompt", JString (AITone.prompt (ui w)));
                 ("key", JString (AITone.keySig (ui w)));
                 ("meter", JString (AITone.meter (ui w)));
                 ("unit_note_length", JString "1/8");
                 ("bars", JNumber (AITone.bars (ui w)))]) as [res|e] eqn:Hjson.
    + destruct (blob_reply net "/api/abc/audio/wav" [("abc", JString (res_abc res))])
        as [bytes|e] eqn:Hblob.
      * exists [ClickGenerate; JSONReply 0 (Resolved res); BlobReply 0 (Resolved bytes)].
        simpl. unfold Button. rewrite Hl. simpl. unfold AITone.onGenerate.
        rewrite Hmode. simpl. rewrite Hjson. simpl. rewrite Hblob. simpl.
        by destruct (AITone.audioUrl (ui w)) as [[|a s]|].
      * exists [ClickGenerate; JSONReply 0 (Resolved res); BlobReply 0 (Rejected e)].
        simpl. unfold Button. rewrite Hl. simpl. unfold AITone.onGenerate.
        rewrite Hmode. simpl. rewrite Hjson. simpl. by rewrite Hblob.
    + exists [ClickGenerate; JSONReply 0 (Rejected e)].
      simpl. unfold Button. rewrite Hl. simpl. unfold AITone.onGenerate.
      rewrite Hmode. simpl. by rewrite Hjson.
  - destruct (blob_reply net "/api/gemini/audio/wav"
                [("prompt", JString (AITone.prompt (ui w)));
                 ("bpm", JNumber (AITone.bpm (ui w)));
                 ("density", JNumber (AITone.density (ui w)));
                 ("brightness", JNumber (AITone.brightness (ui w)));
                 ("guidance", JNumber (AITone.guidance (ui w)));
                 ("duration_seconds", JNumber (AITone.duration (ui w)))])
      as [bytes|e] eqn:Hblob.
    + exists [ClickGenerate; BlobReply 0 (Resolved bytes)].
      simpl. unfold Button. rewrite Hl. simpl. unfold AITone.onGenerate.
      rewrite Hmode. simpl. rewrite Hblob. simpl.
      by destruct (AITone.audioUrl (ui w)) as [[|a s]|].
    + exists [ClickGenerate; BlobReply 0 (Rejected e)].
      simpl. unfold Button. rewrite Hl. simpl. unfold AITone.onGenerate.
      rewrite Hmode. simpl. by rewrite Hblob.
Qed.

(** ** More about one invocation *)

Ltac log_delta :=
  eexists; split; [by rewrite <- ?app_assoc|]; by split.

(** X1: whatever the backend replies, the promise of [onGenerate] is
    fulfilled, never rejected, and the invocation ends with [loading]
    cleared: the Generate button is enabled again and reads Generate. *)
Theorem generate_always_settles (p : Page) (w : World (CState (page p))) (net : Net) :
  let r := generate (page p) net w in
  r.2 = Resolved tt
  ∧ c_loading (page p) (ui r.1) = false
  ∧ generate_disabled (view p (ui r.1)) = false
  ∧ generate_label (view p (ui r.1)) = "Generate".
Proof.
  destruct p; simpl in w |- *; run_handler; simpl.
  - destruct (AITone.mode (ui w)); simpl.
    + destruct (json_reply net _ _) as [res|e]; simpl; [|done].
      destruct (blob_reply net _ _) as [bytes|e]; simpl; [|done].
      by destruct (AITone.audioUrl (ui w)) as [[|a s]|].
    + destruct (blob_reply net _ _) as [bytes|e]; simpl; [|done].
      by destruct (AITone.audioUrl (ui w)) as [[|a s]|].
  - destruct (json_reply net _ _) as [res|e]; simpl; [|done].
    destruct (blob_reply net _ _) as [bytes|e]; simpl; [|done].
    by destruct (Chatbot.audioUrl (ui w)) as [[|a s]|].
Qed.

(** X2: a generation never retries and never downloads.  On the AITone
    page a DirectAudio generation sends one request; a FastNotation
    generation sends the notation request, and the render request only if
    the notation request succeeded; nothing is sent after a rejection.  The
    Chatbot page does as FastNotation. *)
Theorem generation_never_retries :
  (∀ (w : World AITone.State) (net : Net),
     ∃ delta : list effect,
       log (generate AITone_page net w).1 = log w ++ delta
       ∧ count is_net delta =
           match AITone.mode (ui w) with
           | AITone.direct => 1%nat
           | AITone.fast =>
               match json_reply net "/api/gemini/abc"
                       [("prompt", JString (AITone.prompt (ui w)));
                        ("key", JString (AITone.keySig (ui w)));
                        ("meter", JString (AITone.meter (ui w)));
                        ("unit_note_length", JString "1/8");
                        ("bars", JNumber (AITone.bars (ui w)))] with
               | Resolved _ => 2%nat
               | Rejected _ => 1%nat
               end
           end
       ∧ count is_download delta = 0%nat)
  ∧ (∀ (w : World Chatbot.State) (net : Net),
     ∃ delta : list effect,
       log (generate Chatbot_page net w).1 = log w ++ delta
       ∧ count is_net delta =
           match json_reply net "/api/hf/abc"
                   [("prompt", JString (Chatbot.prompt (ui w)));
                    ("top_p", JNumber (Chatbot.topP (ui w)));
                    ("temperature", JNumber (Chatbot.temperature (ui w)));
                    ("max_length", JNumber 1024)] with
           | Resolved _ => 2%nat
           | Rejected _ => 1%nat
           end
       ∧ count is_download delta = 0%nat).
Proof.
  split; intros w net; run_handler; simpl.
  - destruct (AITone.mode (ui w)); simpl.
    + destruct (json_reply net _ _) as [res|e]; simpl; [|log_delta].
      destruct (blob_reply net _ _) as [bytes|e]; simpl; [|log_delta].
      destruct (AITone.audioUrl (ui w)) as [[|a s]|]; simpl; log_delta.
    + destruct (blob_reply net _ _) as [bytes|e]; simpl; [|log_delta].
      destruct (AITone.audioUrl (ui w)) as [[|a s]|]; simpl; log_delta.
  - destruct (json_reply net _ _) as [res|e]; simpl; [|log_delta].
    destruct (blob_reply net _ _) as [bytes|e]; simpl; [|log_delta].
    destruct (Chatbot.audioUrl (ui w)) as [[|a s]|]; simpl; log_delta.
Qed.

(** X3: on the AITone page, a control that is not rendered in the current
    mode has no effect on a generation in that mode: setting it before the
    generation or after it gives the same requests, the same results and
    the same state. *)
Theorem hidden_controls_do_not_affect_generation
    (w : World AITone.State) (i : AITone.Input) (net : Net) :
  AITone_rendered (ui w) i = false →
  generate AITone_page net (set_ui (AITone.input i) w)
  = (set_ui (AITone.input i) (generate AITone_page net w).1,
     (generate AITone_page net w).2).
Proof.
  intros Hhidden. unfold AITone_rendered in Hhidden. run_handler.
  destruct i; destruct (AITone.mode (ui w)) eqn:Hmode; try discriminate; simpl;
    rewrite Hmode; simpl.
  all: try (destruct (json_reply net _ _) as [res|e]; simpl; [|reflexivity]).
  all: destruct (blob_reply net _ _) as [bytes|e]; simpl; [|reflexivity].
  all: by destruct (AITone.audioUrl (ui w)) as [[|a s]|].
Qed.

(** An instance: the tempo slider, in fast mode. *)
Lemma hidden_controls_do_not_affect_generation_witness :
  let w := mount AITone_page in
  let net := backend_ok "X:1" riff in
  log (generate AITone_page net (set_ui (AITone.set_bpm 90) w)).1
  = log (generate AITone_page net w).1.
Proof.
  intros w net.
  pose proof (hidden_controls_do_not_affect_generation w (AITone.SetBpm 90) net eq_refl) as H.
  simpl AITone.input in H. by rewrite H.
Defined.

(** X4: after a DirectAudio generation, successful or not, there is
    nothing to export: the notation panel and the download buttons are
    gone, and [onDownload] does nothing. *)
Theorem nothing_to_export_after_direct_generation
    (w : World AITone.State) (net net' : Net) (kind : Kind) :
  AITone.mode (ui w) = AITone.direct →
  let w' := (generate AITone_page net w).1 in
  export AITone_page kind net' w' = (w', Resolved tt)
  ∧ download_buttons (AITone_view (ui w')) = []
  ∧ notation_text (AITone_view (ui w')) = None.
Proof.
  intros Hmode. run_handler. rewrite Hmode. simpl.
  destruct (blob_reply net _ _) as [bytes|e]; simpl;
    [|rewrite ?Hmode; repeat split; reflexivity].
  destruct (AITone.audioUrl (ui w)) as [[|a s]|]; simpl; rewrite ?Hmode;
    repeat split; reflexivity.
Qed.

(** An instance: a failing DirectAudio generation after a FastNotation
    one. *)
Lemma nothing_to_export_after_direct_generation_witness :
  let w := perform (session AITone_page [DoGenerate (backend_ok "X:1" riff)])
             (DoInput (C:=AITone_page) (AITone.SetMode AITone.direct)) in
  let w' := (generate AITone_page (backend_down OtherValue) w).1 in
  notation_text (AITone_view (ui w)) = Some "X:1"
  ∧ export AITone_page midi (backend_ok "" mthd) w' = (w', Resolved tt).
Proof.
  intros w w'. split; [reflexivity|].
  apply (nothing_to_export_after_direct_generation w (backend_down OtherValue)
           (backend_ok "" mthd) midi eq_refl).
Defined.

(** X5: when the first call of a generation is rejected, the error line
    shows the message of the error, or Generation failed for a value that
    is no [Error]; an [Error] with an empty message shows no error line at
    all.  The player, the notation panel and the download buttons are as
    before the click. *)
Theorem empty_error_message_fails_silently :
  (∀ (w : World AITone.State) (net : Net) (e : thrown),
     AITone.mode (ui w) = AITone.fast →
     json_reply net "/api/gemini/abc"
       [("prompt", JString (AITone.prompt (ui w)));
        ("key", JString (AITone.keySig (ui w)));
        ("meter", JString (AITone.meter (ui w)));
        ("unit_note_length", JString "1/8");
        ("bars", JNumber (AITone.bars (ui w)))] = Rejected e →
     let v := AITone_view (ui w) in
     let v' := AITone_view (ui (generate AITone_page net w).1) in
     error_text v' =
       match failure_message e with
       | EmptyString => None
       | String _ _ => Some (failure_message e)
       end
     ∧ audio_src v' = audio_src v
     ∧ notation_text v' = notation_text v
     ∧ download_buttons v' = download_buttons v)
  ∧ (∀ (w : World Chatbot.State) (net : Net) (e : thrown),
     json_reply net "/api/hf/abc"
       [("prompt", JString (Chatbot.prompt (ui w)));
        ("top_p", JNumber (Chatbot.topP (ui w)));
        ("temperature", JNumber (Chatbot.temperature (ui w)));
        ("max_length", JNumber 1024)] = Rejected e →
     let v := Chatbot_view (ui w) in
     let v' := Chatbot_view (ui (generate Chatbot_page net w).1) in
     error_text v' =
       match failure_message e with
       | EmptyString => None
       | String _ _ => Some (failure_message e)
       end
     ∧ audio_src v' = audio_src v
     ∧ notation_text v' = notation_text v
     ∧ download_buttons v' = download_buttons v).
Proof.
  split.
  - intros w net e Hmode Hjson. run_handler. rewrite Hmode. simpl. rewrite Hjson.
    simpl. rewrite Hmode. by destruct (failure_message e).
  - intros w net e Hjson. run_handler. simpl. rewrite Hjson.
    simpl. by destruct (failure_message e).
Qed.

(** An instance: the backend rejects with an [Error] whose message is
    empty. *)
Lemma empty_error_message_fails_silently_witness :
  let w := session Chatbot_page [DoGenerate (backend_ok "X:1" riff)] in
  let w' := (generate Chatbot_page (backend_down (ErrorObject "")) w).1 in
  Chatbot.error (ui w') = Some ""
  ∧ Chatbot_view (ui w') = Chatbot_view (ui w).
Proof.
  intros w w'. split; [reflexivity|].
  pose proof (proj2 empty_error_message_fails_silently w
                (backend_down (ErrorObject "")) (ErrorObject "") eq_refl) as H.
  cbv zeta in H. destruct H as (Herr & Haudio & Htext & Hbuttons).
  reflexivity.
Defined.

(** ** More about the event loop *)

(** A property of suspended handlers that launching and resuming
    establish holds of every suspended handler the event loop ever has. *)
Section SuspendedHandlers.
Context (p : Page).
Local Abbreviation C := (page p).
Context (T : handler * pending (CState C) → Prop).
Hypothesis launch_generate : ∀ w : World (CState C),
  world_ok w → suspends_as T Generate (run_sync (c_onGenerate C (ui w)) w).
Hypothesis launch_export : ∀ (kind : Kind) (w : World (CState C)),
  world_ok w → suspends_as T (Export kind) (run_sync (c_onDownload C kind (ui w)) w).
Hypothesis resume_json : ∀ h k r (w : World (CState C)),
  world_ok w → T (h, PendingJSON k) → suspends_as T h (run_sync (k r) w).
Hypothesis resume_blob : ∀ h k r (w : World (CState C)),
  world_ok w → T (h, PendingBlob k) → suspends_as T h (run_sync (k r) w).

Lemma settle_tasks (h : handler) r (others : list (handler * pending (CState C))) rej :
  Forall T others → suspends_as T h r → Forall T (tasks (settle h r others rej)).
Proof.
  intros Hothers Hr. destruct r as [w [[[]|e]|ep body k|ep body k]]; simpl in *; try done.
  - apply Forall_app. split; [done|]. by constructor.
  - apply Forall_app. split; [done|]. by constructor.
Qed.

Lemma run_tasks (evs : list (event C)) : Forall T (tasks (run evs)).
Proof.
  induction evs as [|ev evs IH] using rev_ind; [constructor|].
  unfold run in *. rewrite foldl_app. simpl.
  pose proof (run_ok p evs) as (Hok & _). unfold run in Hok.
  set (m := foldl step (boot C) evs) in *.
  destruct ev as [i| |kind|n r|n r]; simpl.
  - done.
  - unfold Button. destruct (c_loading C (ui (world m))); [done|].
    apply settle_tasks; [done|by apply launch_generate].
  - destruct (c_download_shown C (ui (world m))); [|done].
    apply settle_tasks; [done|by apply launch_export].
  - destruct (tasks m !! n) as [[h [k|k]]|] eqn:Hn; try done.
    apply settle_tasks; [by apply Forall_delete|].
    apply resume_json; [done|]. exact (Forall_lookup_1 _ _ _ _ IH Hn).
  - destruct (tasks m !! n) as [[h [k|k]]|] eqn:Hn; try done.
    apply settle_tasks; [by apply Forall_delete|].
    apply resume_blob; [done|]. exact (Forall_lookup_1 _ _ _ _ IH Hn).
Qed.

End SuspendedHandlers.

(** *** Inputs while a request is pending *)

Section Blind.
Context {St : Type} (g : St → St).

Lemma set_ui_comm (f : St → St) (w : World St) :
  (∀ s, f (g s) = g (f s)) → set_ui f (set_ui g w) = set_ui g (set_ui f w).
Proof. intros Hfg. unfold set_ui. simpl. by rewrite Hfg. Qed.

(** A handler whose updates commute with [g] runs the same segment
    before [g] as after it. *)
Lemma blind_run_sync (q : Prog St unit) (w : World St) :
  blind g q →
  run_sync q (set_ui g w) = (set_ui g (run_sync q w).1, (run_sync q w).2).
Proof.
  revert w. induction q as [a|e|f k IH|b k IH|u k IH|l n k IH|ep body k IH|ep body k IH];
    intros w Hq; simpl in *; try reflexivity.
  - destruct Hq as [Hfg Hk]. rewrite set_ui_comm by done. by apply IH.
  - by apply (IH _ (alloc_url b w)).
  - by apply (IH (revoke_url u w)).
  - by apply (IH (emit (Download l n) w)).
Qed.

End Blind.

Lemma blind_suspends (p : Page) (h : handler) (q : Prog (CState (page p)) unit)
    (w : World (CState (page p))) :
  (∀ i, blind (c_input (page p) i) q) → suspends_as blind_task h (run_sync q w).
Proof.
  revert w. induction q as [a|e|f k IH|b k IH|u k IH|l n k IH|ep body k IH|ep body k IH];
    intros w Hq; unfold suspends_as, blind_task in *; simpl in *; try done.
  all: apply IH; intros i; apply Hq.
Qed.

Lemma handlers_blind (p : Page) (i : CInput (page p)) (cap : CState (page p)) :
  blind (c_input (page p) i) (c_onGenerate (page p) cap)
  ∧ ∀ kind, blind (c_input (page p) i) (c_onDownload (page p) kind cap).
Proof.
  destruct p; simpl in *.
  - split.
    + unfold AITone.onGenerate. destruct (AITone.mode cap); simpl.
      * split; [by destruct i|]. split; [by destruct i|].
        intros [res|e]; simpl; [|by destruct i].
        split; [by destruct i|]. intros [bytes|e]; simpl; [|by destruct i].
        destruct (AITone.audioUrl cap) as [[|a s]|]; simpl; intros; by destruct i.
      * split; [by destruct i|]. split; [by destruct i|]. split; [by destruct i|].
        intros [bytes|e]; simpl; [|by destruct i].
        destruct (AITone.audioUrl cap) as [[|a s]|]; simpl; intros; by destruct i.
    + intros kind. unfold AITone.onDownload.
      destruct (AITone.abc cap) as [[|a s]|]; simpl; try done. by intros [bytes|e].
  - split.
    + unfold Chatbot.onGenerate. simpl.
      split; [by destruct i|]. split; [by destruct i|].
      intros [res|e]; simpl; [|by destruct i].
      split; [by destruct i|]. intros [bytes|e]; simpl; [|by destruct i].
      destruct (Chatbot.audioUrl cap) as [[|a s]|]; simpl; intros; by destruct i.
    + intros kind. unfold Chatbot.onDownload.
      destruct (Chatbot.abc cap) as [[|a s]|]; simpl; try done. by intros [bytes|e].
Qed.

Lemma run_blind (p : Page) (evs : list (event (page p))) :
  Forall blind_task (tasks (run evs)).
Proof.
  apply run_tasks.
  - intros w _. apply blind_suspends. intros i. apply handlers_blind.
  - intros kind w _. apply blind_suspends. intros i. apply handlers_blind.
  - intros h k r w _ Hk. apply blind_suspends. intros i. apply Hk.
  - intros h k r w _ Hk. apply blind_suspends. intros i. apply Hk.
Qed.

Lemma settle_set_ui (p : Page) (g : CState (page p) → CState (page p)) (h : handler)
    (r : World (CState (page p)) * paused (CState (page p)) unit) others rej :
  settle h (set_ui g r.1, r.2) others rej
  = mkMachine (set_ui g (world (settle h r others rej)))
      (tasks (settle h r others rej)) (unhandled (settle h r others rej)).
Proof. by destruct r as [w [[[]|e]|ep body k|ep body k]]. Qed.

(** X6: a handler suspended at a request reads nothing of the current
    state and writes only its own cells.  So an input made while a request
    is pending commutes with the reply to it: the generation in flight
    works on what it captured at the click (its mode, too), and the input
    survives it. *)
Theorem inputs_commute_with_replies
    (p : Page) (evs : list (event (page p))) (i : CInput (page p)) (n : nat) :
  let m := run evs in
  (∀ r, step (step m (UserInput i)) (JSONReply n r)
        = step (step m (JSONReply n r)) (UserInput i))
  ∧ (∀ r, step (step m (UserInput i)) (BlobReply n r)
          = step (step m (BlobReply n r)) (UserInput i)).
Proof.
  intros m. pose proof (run_blind p evs) as Hblind. fold m in Hblind.
  split; intros r; simpl;
    destruct (tasks m !! n) as [[h [k|k]]|] eqn:Hn; try reflexivity;
    pose proof (Forall_lookup_1 _ _ _ _ Hblind Hn i r) as Hk;
    by rewrite (blind_run_sync _ _ _ Hk), settle_set_ui.
Qed.

(** An instance: the mode is switched to direct while the notation call
    of a FastNotation generation is pending; the reply is still taken as
    the notation, and the render call follows. *)
Lemma inputs_commute_with_replies_witness :
  let m := run (C:=page AITonePage) [ClickGenerate] in
  let m' := step (step m (UserInput (C:=page AITonePage) (AITone.SetMode AITone.direct)))
              (JSONReply 0 (Resolved (mkAbcResponse "X:1"))) in
  AITone.mode (ui (world m')) = AITone.direct
  ∧ AITone.abc (ui (world m')) = Some "X:1"
  ∧ m' = step (step m (JSONReply 0 (Resolved (mkAbcResponse "X:1"))))
           (UserInput (C:=page AITonePage) (AITone.SetMode AITone.direct)).
Proof.
  intros m m'. split; [reflexivity|]. split; [reflexivity|].
  apply (inputs_commute_with_replies AITonePage [ClickGenerate]
           (AITone.SetMode AITone.direct) 0).
Defined.

(** *** Exports in the event loop *)

Ltac untouched_ok :=
  split; [by repeat handles_step|]; split; [reflexivity|];
  first
    [ reflexivity
    | by apply temporary_url_gone; apply (handles_ok_fresh (C:=AITone_page))
    | by apply temporary_url_gone; apply (handles_ok_fresh (C:=Chatbot_page)) ].

Lemma onDownload_untouched (p : Page) (kind : Kind) (cap : CState (page p))
    (w : World (CState (page p))) :
  world_ok w →
  segments world_ok untouched untouched (c_onDownload (page p) kind cap) w w.
Proof.
  unfold untouched, world_ok, published. intros Hok. destruct p; simpl in *.
  - unfold AITone.onDownload. destruct (AITone.abc cap) as [[|a s]|]; simpl; try done.
    split; [untouched_ok|]. intros [bytes|e] w1 H1; simpl; untouched_ok.
  - unfold Chatbot.onDownload. destruct (Chatbot.abc cap) as [[|a s]|]; simpl; try done.
    split; [untouched_ok|]. intros [bytes|e] w1 H1; simpl; untouched_ok.
Qed.

Lemma untouched_suspends (p : Page) (kind : Kind) (q : Prog (CState (page p)) unit)
    (w : World (CState (page p))) :
  segments world_ok untouched untouched q w w →
  untouched w (run_sync q w).1
  ∧ suspends_as export_task (Export kind) (run_sync q w).
Proof.
  intros Hq. apply segments_run_sync in Hq. unfold suspends_as, export_task.
  destruct (run_sync q w) as [w' [r|ep body k|ep body k]]; simpl in *; tauto.
Qed.

Lemma run_exports (p : Page) (evs : list (event (page p))) :
  Forall export_task (tasks (run evs)).
Proof.
  apply run_tasks.
  - intros w _. unfold suspends_as, export_task.
    by destruct (run_sync _ w) as [w' [r|ep body k|ep body k]].
  - intros kind w Hok. by apply untouched_suspends, onDownload_untouched.
  - intros [|kind] k r w Hok Hk.
    + unfold suspends_as, export_task.
      by destruct (run_sync _ w) as [w' [r'|ep body k'|ep body k']].
    + by apply untouched_suspends, Hk.
  - intros [|kind] k r w Hok Hk.
    + unfold suspends_as, export_task.
      by destruct (run_sync _ w) as [w' [r'|ep body k'|ep body k']].
    + by apply untouched_suspends, Hk.
Qed.

Lemma settle_export_flight (p : Page) (kind : Kind)
    (r : World (CState (page p)) * paused (CState (page p)) unit) others rej :
  world (settle (Export kind) r others rej) = r.1
  ∧ length (List.filter is_generate (tasks (settle (Export kind) r others rej)))
    = length (List.filter is_generate others).
Proof.
  destruct r as [w [[[]|e]|ep body k|ep body k]]; simpl; split; try reflexivity;
    by rewrite generations_snoc, Nat.add_0_r.
Qed.

(** X7: an export never changes the page.  In the event loop, under any
    interleaving, a click on a download button and the reply to the
    request of an export leave the component state, the live object URLs
    and the generation in flight as they are. *)
Theorem exports_never_change_the_page (p : Page) (evs : list (event (page p))) :
  let m := run evs in
  (∀ kind : Kind,
     let m' := step m (ClickDownload kind) in
     ui (world m') = ui (world m)
     ∧ urls (world m') = urls (world m)
     ∧ in_flight m' = in_flight m)
  ∧ (∀ (n : nat) (kind : Kind) (t : pending (CState (page p))) (r : outcome Blob),
     tasks m !! n = Some (Export kind, t) →
     let m' := step m (BlobReply n r) in
     ui (world m') = ui (world m)
     ∧ urls (world m') = urls (world m)
     ∧ in_flight m' = in_flight m).
Proof.
  intros m. pose proof (run_ok p evs) as (Hok & _). fold m in Hok.
  pose proof (run_exports p evs) as Hexp. fold m in Hexp. split.
  - intros kind. simpl. destruct (c_download_shown _ _); [|done].
    destruct (untouched_suspends p kind _ _
                (onDownload_untouched p kind (ui (world m)) _ Hok)) as [(_ & Hui & Hurls) _].
    unfold in_flight.
    destruct (settle_export_flight p kind
                (run_sync (c_onDownload (page p) kind (ui (world m))) (world m))
                (tasks m) (unhandled m)) as [-> ->]. done.
  - intros n kind t r Hn. simpl. rewrite Hn.
    pose proof (Forall_lookup_1 _ _ _ _ Hexp Hn) as Ht.
    pose proof (generations_delete _ _ _ Hn) as Hdel.
    change (is_generate (Export kind, t)) with false in Hdel. rewrite Nat.add_0_r in Hdel.
    unfold export_task in Ht. simpl in Ht.
    destruct t as [k|k]; [done|].
    destruct (untouched_suspends p kind _ _ (Ht r _ Hok)) as [(_ & Hui & Hurls) _].
    unfold in_flight.
    destruct (settle_export_flight p kind (run_sync (k r) (world m))
                (delete n (tasks m)) (unhandled m)) as [-> ->]. by rewrite Hdel.
Qed.

(** An instance: an export clicked and answered while a generation is in
    flight on the Chatbot page. *)
Lemma exports_never_change_the_page_witness :
  let m := run (C:=page ChatbotPage)
             [ClickGenerate; JSONReply 0 (Resolved (mkAbcResponse "X:1"));
              BlobReply 0 (Resolved riff); ClickGenerate; ClickDownload midi] in
  let m' := step m (BlobReply 1 (Resolved mthd)) in
  in_flight m = 1%nat
  ∧ ui (world m') = ui (world m)
  ∧ urls (world m') = urls (world m)
  ∧ in_flight m' = in_flight m.
Proof.
  intros m m'. split; [reflexivity|].
  eapply (proj2 (exports_never_change_the_page ChatbotPage _) 1 midi). reflexivity.
Defined.

(** *** The buttons and the player *)

Lemma onGenerate_first_segment (p : Page) (w : World (CState (page p))) :
  let r := run_sync (c_onGenerate (page p) (ui w)) w in
  (∃ e, is_net e = true ∧ log r.1 = log w ++ [e])
  ∧ c_loading (page p) (ui r.1) = true
  ∧ match r.2 with Finished _ => False | _ => True end.
Proof.
  destruct p; simpl in w |- *.
  - unfold AITone.onGenerate. destruct (AITone.mode (ui w)); simpl;
      (split; [eexists; split; [|reflexivity]; reflexivity|done]).
  - unfold Chatbot.onGenerate. simpl.
    split; [eexists; split; [|reflexivity]; reflexivity|done].
Qed.

(** X8: the Generate button is never stuck.  In every state the event
    loop reaches with no generation in flight, the button reads Generate,
    and a click on it starts a generation: it sends exactly one request,
    one generation is in flight, and the button reads Generating... *)
Theorem generate_button_is_never_stuck (p : Page) (evs : list (event (page p))) :
  let m := run evs in
  in_flight m = 0%nat →
  let m' := step m ClickGenerate in
  generate_label (view p (ui (world m))) = "Generate"
  ∧ in_flight m' = 1%nat
  ∧ (∃ e, is_net e = true ∧ log (world m') = log (world m) ++ [e])
  ∧ generate_label (view p (ui (world m'))) = "Generating...".
Proof.
  intros m Hidle. pose proof (run_ok p evs) as (_ & Hcount & _). fold m in Hcount.
  assert (Hl : c_loading (page p) (ui (world m)) = false).
  { destruct (c_loading (page p) (ui (world m))); [lia|done]. }
  simpl. unfold Button. rewrite Hl.
  destruct (onGenerate_first_segment p (world m)) as (Hlog & Hl' & Hpaused).
  unfold in_flight in *.
  destruct (run_sync (c_onGenerate (page p) (ui (world m))) (world m))
    as [w' [r|ep body k|ep body k]]; simpl in *; [done| |].
  - rewrite generations_snoc, Hidle. split; [|split; [done|split; [done|]]].
    + destruct p; simpl in *; by rewrite Hl.
    + destruct p; simpl in *; by rewrite Hl'.
  - rewrite generations_snoc, Hidle. split; [|split; [done|split; [done|]]].
    + destruct p; simpl in *; by rewrite Hl.
    + destruct p; simpl in *; by rewrite Hl'.
Qed.

(** An instance: a second generation after a failed one. *)
Lemma generate_button_is_never_stuck_witness :
  let m := run (C:=page AITonePage) [ClickGenerate; JSONReply 0 (Rejected OtherValue)] in
  AITone.error (ui (world m)) = Some "Generation failed"
  ∧ in_flight (step m ClickGenerate) = 1%nat.
Proof.
  intros m. split; [reflexivity|].
  apply (generate_button_is_never_stuck AITonePage
           [ClickGenerate; JSONReply 0 (Rejected OtherValue)]). reflexivity.
Defined.



Lemma live_player (p : Page) (w : World (CState (page p))) :
  world_ok w →
  match audio_src (view p (ui w)) with
  | Some u => ∃ bytes, urls w = {[u := bytes]}
  | None => urls w = ∅
  end.
Proof.
  intros Hok. pose proof Hok as (Hdom & Hknown & _).
  assert (Hsrc : audio_src (view p (ui w)) = published w).
  { unfold published in *. destruct p; simpl in *; unfold shown.
    - destruct (AITone.audioUrl (ui w)) as [[|a s]|]; simpl; try done.
      destruct (Hknown "") as (n & _ & Heq); [by left|done].
    - destruct (Chatbot.audioUrl (ui w)) as [[|a s]|]; simpl; try done.
      destruct (Hknown "") as (n & _ & Heq); [by left|done]. }
  rewrite Hsrc. destruct (published w) as [u|].
  - by apply dom_singleton_inv_L.
  - by apply dom_empty_inv_L.
Qed.

(** X10: the player never plays a revoked URL.  After any sequence of
    handler invocations, and in every state of the event loop, when the
    page renders the audio player its [src] is the one live object URL,
    and when it renders the placeholder no object URL is live. *)
Theorem player_plays_a_live_url (p : Page) :
  (∀ cmds : list (command (page p)),
     let w := session (page p) cmds in
     match audio_src (view p (ui w)) with
     | Some u => ∃ bytes, urls w = {[u := bytes]}
     | None => urls w = ∅
     end)
  ∧ (∀ evs : list (event (page p)),
     let w := world (run evs) in
     match audio_src (view p (ui w)) with
     | Some u => ∃ bytes, urls w = {[u := bytes]}
     | None => urls w = ∅
     end).
Proof.
  split.
  - intros cmds. apply live_player, session_ok.
  - intros evs. apply live_player. by destruct (run_ok p evs) as (Hok & _).
Qed.
